(** * ECG reader: model manager, classification, annotation and the
      [/analyze] entry point of [ecg.py], embedded as state-passing
      functions over an explicit Python world. *)

From Stdlib Require Import Reals QArith.
From stdpp Require Import gmap strings list fin_maps pretty.

#[local] Open Scope Z_scope.

(** ** Python outcomes and the world *)

(** The exceptions the embedded code can meet.  All of them derive from
    Python's [Exception], so [except Exception] catches every one. *)
Inductive exn : Type :=
| FileNotFoundError (path : string)
| UnpicklingError (msg : string)
| KeyError (key : string)
| KeyErrorInt (key : Z)
| TypeError (msg : string)
| IndexError (msg : string)
| RuntimeError (msg : string)
| UnidentifiedImageError (msg : string)
| OSError (msg : string)
| CvError (msg : string).

(** [str(e)].  An exception raised inside a library carries the text the
    library gave it; [FileNotFoundError] is the one [open] raises for a
    missing path, and a [KeyError] prints the [repr] of its key. *)
Definition str_exn (e : exn) : string :=
  match e with
  | FileNotFoundError p => "[Errno 2] No such file or directory: '" +:+ p +:+ "'"
  | UnpicklingError m => m
  | KeyError k => "'" +:+ k +:+ "'"
  | KeyErrorInt k => pretty k
  | TypeError m => m
  | IndexError m => m
  | RuntimeError m => m
  | UnidentifiedImageError m => m
  | OSError m => m
  | CvError m => m
  end.

Inductive outcome (A : Type) : Type :=
| Returned (a : A)
| Raised (e : exn).
Arguments Returned {A} a.
Arguments Raised {A} e.

(** A floating-point number as a tensor or a Python [float] holds it (finite,
    infinite or NaN), given by its bits.  How torch computes with such numbers
    belongs to the library interface below. *)
Record float := { float_bits : Z }.

(** Parameter name to tensor shape and flattened values. *)
Record param := { shape : list Z; values : list float }.

(** What [torch.load] yields for a readable checkpoint: a dict with the three
    keys the program reads.  A key that is absent from the dict is [None]. *)
Record checkpoint := {
  model_state_dict : option (gmap string param);
  label_to_id : option (gmap string Z);
  id_to_label : option (gmap Z string)
}.

(** A file on disk, by what [torch.load] makes of it: it raises [e], or it
    yields a checkpoint. *)
Inductive file : Type :=
| Unreadable (e : exn)
| Pickled (c : checkpoint).

Inductive device := cpu | cuda.

(** A [torch.nn.Module] object on the heap.  [weights] holds the parameters
    copied in from a state dict so far; the others still have the values
    [create_model] drew for them. *)
Record module := {
  weights : gmap string param;
  training : bool;
  on_device : device
}.

Definition pixel : Type := Z * Z * Z.
Definition ndarray : Type := list (list pixel).

(** The process: module-level globals, the object heaps, the disk, and the
    logs of disk reads and of [print]. *)
Record world := {
  MODEL : option positive;
  LABEL_TO_ID : option (gmap string Z);
  ID_TO_LABEL : option (gmap Z string);
  modules : gmap positive module;
  arrays : gmap positive ndarray;
  disk : gmap string file;
  disk_reads : list string;
  stdout : list string
}.

Definition set_MODEL (v : option positive) (w : world) : world :=
  {| MODEL := v; LABEL_TO_ID := LABEL_TO_ID w; ID_TO_LABEL := ID_TO_LABEL w;
     modules := modules w; arrays := arrays w; disk := disk w;
     disk_reads := disk_reads w; stdout := stdout w |}.
Definition set_LABEL_TO_ID (v : option (gmap string Z)) (w : world) : world :=
  {| MODEL := MODEL w; LABEL_TO_ID := v; ID_TO_LABEL := ID_TO_LABEL w;
     modules := modules w; arrays := arrays w; disk := disk w;
     disk_reads := disk_reads w; stdout := stdout w |}.
Definition set_ID_TO_LABEL (v : option (gmap Z string)) (w : world) : world :=
  {| MODEL := MODEL w; LABEL_TO_ID := LABEL_TO_ID w; ID_TO_LABEL := v;
     modules := modules w; arrays := arrays w; disk := disk w;
     disk_reads := disk_reads w; stdout := stdout w |}.
Definition set_modules (v : gmap positive module) (w : world) : world :=
  {| MODEL := MODEL w; LABEL_TO_ID := LABEL_TO_ID w; ID_TO_LABEL := ID_TO_LABEL w;
     modules := v; arrays := arrays w; disk := disk w;
     disk_reads := disk_reads w; stdout := stdout w |}.
Definition set_arrays (v : gmap positive ndarray) (w : world) : world :=
  {| MODEL := MODEL w; LABEL_TO_ID := LABEL_TO_ID w; ID_TO_LABEL := ID_TO_LABEL w;
     modules := modules w; arrays := v; disk := disk w;
     disk_reads := disk_reads w; stdout := stdout w |}.
Definition set_disk_reads (v : list string) (w : world) : world :=
  {| MODEL := MODEL w; LABEL_TO_ID := LABEL_TO_ID w; ID_TO_LABEL := ID_TO_LABEL w;
     modules := modules w; arrays := arrays w; disk := disk w;
     disk_reads := v; stdout := stdout w |}.
Definition set_stdout (v : list string) (w : world) : world :=
  {| MODEL := MODEL w; LABEL_TO_ID := LABEL_TO_ID w; ID_TO_LABEL := ID_TO_LABEL w;
     modules := modules w; arrays := arrays w; disk := disk w;
     disk_reads := disk_reads w; stdout := v |}.

(** The world at import time: the three globals are [None] (lines 22-24). *)
Definition boot (d : gmap string file) : world :=
  {| MODEL := None; LABEL_TO_ID := None; ID_TO_LABEL := None;
     modules := ∅; arrays := ∅; disk := d; disk_reads := []; stdout := [] |}.

(** ** The Python monad: state that survives a raised exception *)

Definition Py (A : Type) : Type := world → outcome A * world.

#[global] Instance py_ret : MRet Py := λ A a w, (Returned a, w).
#[global] Instance py_bind : MBind Py := λ A B k m w,
  match m w with
  | (Returned a, w') => k a w'
  | (Raised e, w') => (Raised e, w')
  end.

Definition raise {A} (e : exn) : Py A := λ w, (Raised e, w).
(** [try: body except Exception as e: handler e] *)
Definition try_except {A} (body : Py A) (handler : exn → Py A) : Py A :=
  λ w, match body w with
       | (Returned a, w') => (Returned a, w')
       | (Raised e, w') => handler e w'
       end.
Definition get : Py world := λ w, (Returned w, w).
Definition modify (f : world → world) : Py unit := λ w, (Returned tt, f w).
Definition lift {A} (o : outcome A) : Py A := λ w, (o, w).

Definition print (s : string) : Py unit :=
  modify (λ w, set_stdout (stdout w ++ [s]) w).

(** [d[key]] on a dict read from the checkpoint. *)
Definition getitem {V} (key : string) (o : option V) : Py V :=
  match o with
  | Some v => mret v
  | None => raise (KeyError key)
  end.

(** ** The libraries the program calls *)

(** torch and timm: device discovery, the parameter shapes of the
    [swin_base_patch4_window12_384] architecture built with [num_classes=4],
    the text of the error [load_state_dict] raises, the forward pass, which
    yields one logit per class, and [softmax] and [argmax] on a vector of
    floats.  Nothing is assumed of the floating-point results beyond their
    shape: [softmax] keeps the length and [argmax] is an index into its
    argument. *)
Class Torch := {
  cuda_is_available : bool;
  swin_shapes : gmap string (list Z);
  state_dict_error : gmap string param → string;
  tensor : Type;
  forward : module → tensor → outcome (list float);
  forward_num_classes : ∀ m t l, forward m t = Returned l → length l = 4%nat;
  softmax : list float → list float;
  softmax_length : ∀ l, length (softmax l) = length l;
  argmax : list float → nat;
  argmax_bound : ∀ l, l ≠ [] → (argmax l < length l)%nat
}.

Section ModelManager.
Context `{Torch}.

(** Line 25. *)
Definition DEVICE : device := if cuda_is_available then cuda else cpu.

(** [torch.load(model_path, map_location=DEVICE)] *)
Definition torch_load (path : string) : Py checkpoint :=
  modify (λ w, set_disk_reads (disk_reads w ++ [path]) w);;
  w ← get;
  match disk w !! path with
  | None => raise (FileNotFoundError path)
  | Some (Unreadable e) => raise e
  | Some (Pickled c) => mret c
  end.

(** [timm.create_model(..., pretrained=False, num_classes=4)]: a new module
    object with freshly initialised weights, in training mode, on the CPU. *)
Definition create_model : Py positive :=
  w ← get;
  let r := fresh (dom (modules w)) in
  modify (set_modules
    (<[r := {| weights := ∅; training := true; on_device := cpu |}]> (modules w)));;
  mret r.

(** The entries of a state dict that the module has a parameter for, of the
    same shape. *)
Definition fitting (sd : gmap string param) : gmap string param :=
  filter (λ kp, swin_shapes !! kp.1 = Some (shape kp.2)) sd.

(** [m.load_state_dict(sd)] with the default [strict=True]: every fitting
    entry is copied into the module; then missing keys, unexpected keys and
    size mismatches, if there are any, raise. *)
Definition load_state_dict (r : positive) (sd : gmap string param) : Py unit :=
  modify (λ w, set_modules
    (alter (λ m, {| weights := fitting sd ∪ weights m; training := training m;
                    on_device := on_device m |}) r (modules w)) w);;
  if decide (shape <$> sd = swin_shapes) then mret tt
  else raise (RuntimeError (state_dict_error sd)).

(** [m.to(device)] moves the module in place and returns the same object. *)
Definition module_to (r : positive) (d : device) : Py positive :=
  modify (λ w, set_modules
    (alter (λ m, {| weights := weights m; training := training m;
                    on_device := d |}) r (modules w)) w);;
  mret r.

(** [m.eval()] *)
Definition module_eval (r : positive) : Py unit :=
  modify (λ w, set_modules
    (alter (λ m, {| weights := weights m; training := false;
                    on_device := on_device m |}) r (modules w)) w).

(** Lines 27-45. *)
Definition load_model (model_path : string) : Py (option positive) :=
  w ← get;
  match MODEL w with
  | Some m => mret (Some m)
  | None =>
    try_except
      (checkpoint ← torch_load model_path;
       r ← create_model;
       modify (set_MODEL (Some r));;
       sd ← getitem "model_state_dict" (model_state_dict checkpoint);
       load_state_dict r sd;;
       r' ← module_to r DEVICE;
       modify (set_MODEL (Some r'));;
       module_eval r';;
       l2i ← getitem "label_to_id" (label_to_id checkpoint);
       modify (set_LABEL_TO_ID (Some l2i));;
       i2l ← getitem "id_to_label" (id_to_label checkpoint);
       modify (set_ID_TO_LABEL (Some i2l));;
       w' ← get;
       mret (MODEL w'))
      (λ e, print ("Error loading model: " +:+ str_exn e);; mret None)
  end.

End ModelManager.

(** ** Classification *)

(** PIL, numpy and torchvision as the program uses them.  [transform] is the
    composed pipeline of lines 49-53 followed by [unsqueeze(0).to(DEVICE)]. *)
Class Imaging `{Torch} := {
  pil_image : Type;
  Image_open : list Byte.byte → outcome pil_image;
  Image_fromarray : ndarray → pil_image;
  convert_RGB : pil_image → outcome pil_image;
  np_array : pil_image → ndarray;
  transform : pil_image → tensor;
  save_jpeg : pil_image → outcome (list Byte.byte);
  b64encode : list Byte.byte → string
}.

Inductive image_arg `{Imaging} : Type :=
| PIL (p : pil_image)
| Array (r : positive).

(** The object heaps. *)

Definition read_array (r : positive) : Py ndarray :=
  w ← get;
  match arrays w !! r with
  | Some a => mret a
  | None => raise (RuntimeError "dangling array reference")
  end.

Definition alloc_array (a : ndarray) : Py positive :=
  w ← get;
  let r := fresh (dom (arrays w)) in
  modify (set_arrays (<[r := a]> (arrays w)));;
  mret r.

Definition read_module (r : positive) : Py module :=
  w ← get;
  match modules w !! r with
  | Some m => mret m
  | None => raise (RuntimeError "dangling module reference")
  end.

Section Classification.
Context `{Imaging}.

(** Lines 47-70. *)
Definition analyze_ecg_image (image : image_arg) : Py (string * float * list float) :=
  image ← match image with
          | Array r => a ← read_array r; mret (Image_fromarray a)
          | PIL p => mret p
          end;
  image ← lift (convert_RGB image);
  let image_tensor := transform image in
  w ← get;
  match MODEL w with
  | None => raise (TypeError "'NoneType' object is not callable")
  | Some r =>
    m ← read_module r;
    output ← lift (forward m image_tensor);
    let probabilities := softmax output in
    let predicted_class_idx := argmax output in
    confidence_score ←
      match probabilities !! predicted_class_idx with
      | Some p => mret p
      | None =>
        raise (IndexError ("index " +:+ pretty (Z.of_nat predicted_class_idx) +:+
                           " is out of bounds for dimension 0 with size " +:+
                           pretty (Z.of_nat (length probabilities))))
      end;
    predicted_label ←
      match ID_TO_LABEL w with
      | None => raise (TypeError "'NoneType' object is not subscriptable")
      | Some d =>
        match d !! Z.of_nat predicted_class_idx with
        | Some l => mret l
        | None => raise (KeyErrorInt (Z.of_nat predicted_class_idx))
        end
      end;
    mret (predicted_label, confidence_score, probabilities)
  end.

End Classification.

(** ** Annotation *)

Inductive retrieval_mode := RETR_EXTERNAL | RETR_LIST | RETR_CCOMP | RETR_TREE.
Inductive approx_method := CHAIN_APPROX_NONE | CHAIN_APPROX_SIMPLE.

(** OpenCV as the program uses it.  Image arguments are H x W x 3 arrays of
    bytes with H, W >= 1, as [np.array(image.convert('RGB'))] builds them; on
    those none of these calls raises.  The drawing functions write into their
    first argument; they are given here by the pixel data they leave in it.
    [HoughLinesP] takes the edge map, rho, theta, the vote threshold,
    [minLineLength] and [maxLineGap], and yields [None] when it finds no line. *)
Class CV2 := {
  gray_image : Type;
  edge_map : Type;
  contour : Type;
  cvtColor_RGB2GRAY : ndarray → gray_image;
  Canny : gray_image → Z → Z → edge_map;
  findContours : edge_map → retrieval_mode → approx_method → list contour;
  contourArea : contour → Q;
  boundingRect : contour → Z * Z * Z * Z;
  HoughLinesP : edge_map → Z → R → Z → Z → Z → option (list (Z * Z * Z * Z));
  rectangle : ndarray → Z * Z → Z * Z → pixel → Z → ndarray;
  line : ndarray → Z * Z → Z * Z → pixel → Z → ndarray
}.

Fixpoint for_each {A} (l : list A) (body : A → Py unit) : Py unit :=
  match l with
  | [] => mret tt
  | x :: l' => body x;; for_each l' body
  end.

Section Annotation.
Context `{CV2}.

(** [cv2.rectangle(img, pt1, pt2, color, thickness)] on a heap array. *)
Definition cv2_rectangle (img : positive) (pt1 pt2 : Z * Z) (color : pixel)
    (thickness : Z) : Py unit :=
  a ← read_array img;
  modify (λ w, set_arrays (<[img := rectangle a pt1 pt2 color thickness]> (arrays w)) w).

(** [cv2.line(img, pt1, pt2, color, thickness)] on a heap array. *)
Definition cv2_line (img : positive) (pt1 pt2 : Z * Z) (color : pixel)
    (thickness : Z) : Py unit :=
  a ← read_array img;
  modify (λ w, set_arrays (<[img := line a pt1 pt2 color thickness]> (arrays w)) w).

(** [a < x < b] on the float that [cv2.contourArea] returns. *)
Definition between (a x b : Q) : bool :=
  match Qlt_le_dec a x, Qlt_le_dec x b with
  | left _, left _ => true
  | _, _ => false
  end.

(** Lines 72-108. *)
Definition mark_ecg_image (img_array : positive) (prediction : string) : Py positive :=
  src ← read_array img_array;
  marked_img ← alloc_array src;
  src ← read_array img_array;
  let gray := cvtColor_RGB2GRAY src in
  let edges := Canny gray 50 150 in
  (if String.eqb prediction "Abnormal_Heartbeat" then
     let contours := findContours edges RETR_EXTERNAL CHAIN_APPROX_SIMPLE in
     for_each contours (λ contour,
       let area := contourArea contour in
       if between 30 area 300 then
         let '(x, y, w, h) := boundingRect contour in
         cv2_rectangle marked_img (x, y) (x + w, y + h) (255, 0, 0) 2
       else mret tt)
   else if String.eqb prediction "Myocardial_Infarction" then
     let lines := HoughLinesP edges 1 (PI / 180)%R 25 10 15 in
     match lines with
     | Some lines =>
       for_each (take 12 lines) (λ '(x1, y1, x2, y2),
         cv2_line marked_img (x1, y1) (x2, y2) (0, 255, 0) 3)
     | None => mret tt
     end
   else if String.eqb prediction "Normal_ECG" then
     let lines := HoughLinesP edges 1 (PI / 180)%R 50 20 5 in
     match lines with
     | Some lines =>
       for_each (take 10 lines) (λ '(x1, y1, x2, y2),
         cv2_line marked_img (x1, y1) (x2, y2) (0, 255, 0) 2)
     | None => mret tt
     end
   else if String.eqb prediction "Post_MI_History" then
     let contours := findContours edges RETR_EXTERNAL CHAIN_APPROX_SIMPLE in
     for_each contours (λ contour,
       let area := contourArea contour in
       if between 25 area 250 then
         let '(x, y, w, h) := boundingRect contour in
         cv2_rectangle marked_img (x, y) (x + w, y + h) (255, 0, 255) 2
       else mret tt)
   else mret tt);;
  mret marked_img.

End Annotation.

(** ** Explanations and the [/analyze] route *)

#[local] Unset Elimination Schemes.
Inductive json : Type :=
| JBool (b : bool)
| JFloat (x : float)
| JStr (s : string)
| JList (l : list json)
| JObject (o : list (string * json)).
#[local] Set Elimination Schemes.

Definition explanation_record (title severity icon : string)
    (findings : list string) (recommendation : string) : json :=
  JObject [("title", JStr title); ("severity", JStr severity); ("icon", JStr icon);
           ("findings", JList (JStr <$> findings));
           ("recommendation", JStr recommendation)].

(** Lines 112-161. *)
Definition explanations : gmap string json :=
  list_to_map [
    ("Abnormal_Heartbeat",
     explanation_record "Abnormal Heartbeat Detected" "warning" "⚠️"
       ["Irregular rhythm with inconsistent intervals";
        "Extra beats or premature contractions detected";
        "P, QRS, or T wave disruptions observed";
        "Non-standard electrical conduction patterns"]
       "Consult with a cardiologist for further evaluation and possible rhythm monitoring.");
    ("Myocardial_Infarction",
     explanation_record "Myocardial Infarction Signs" "critical" "🚨"
       ["ST-segment elevation indicating heart muscle damage";
        "Abnormal Q-waves suggesting tissue necrosis";
        "T-wave inversions indicating ischemia";
        "Altered ST and T segments detected"]
       "IMMEDIATE medical attention required. Contact emergency services or go to the nearest ER.");
    ("Normal_ECG",
     explanation_record "Normal ECG Pattern" "normal" "✓"
       ["Regular rhythm with consistent intervals";
        "Normal P-QRS-T wave sequence";
        "Appropriate wave amplitudes";
        "No significant abnormalities detected"]
       "Continue regular health check-ups and maintain a heart-healthy lifestyle.");
    ("Post_MI_History",
     explanation_record "Post-MI Changes Detected" "monitor" "📋"
       ["Evidence of previous cardiac event";
        "Persistent ECG abnormalities from scar tissue";
        "Altered electrical conduction pathways";
        "Permanent changes from prior myocardial damage"]
       "Regular follow-up with cardiologist. Continue prescribed medications and lifestyle modifications.")
  ].

(** Lines 110-162: [explanations.get(prediction, explanations['Normal_ECG'])]. *)
Definition get_explanation (prediction : string) : json :=
  default
    (default (JObject []) (explanations !! "Normal_ECG"))
    (explanations !! prediction).

Record request := { files : gmap string (list Byte.byte) }.

Section Route.
Context `{Imaging} `{CV2}.

(** Lines 1100-1105. *)
Definition image_to_base64 (img_array : positive) : Py string :=
  a ← read_array img_array;
  let img := Image_fromarray a in
  buffered ← lift (save_jpeg img);
  mret (b64encode buffered).

(** Lines 1056-1098.  The value is the dict handed to [jsonify]. *)
Definition analyze (req : request) : Py (gmap string json) :=
  try_except
    (w ← get;
     match MODEL w with
     | None =>
       mret (list_to_map
         [("success", JBool false);
          ("error", JStr "Model not loaded. Please ensure trained_ecg_model.pth is available.")])
     | Some _ =>
       match files req !! "file" with
       | None =>
         mret (list_to_map
           [("success", JBool false); ("error", JStr "No file uploaded")])
       | Some image_bytes =>
         image ← lift (Image_open image_bytes);
         rgb ← lift (convert_RGB image);
         img_array ← alloc_array (np_array rgb);
         '(prediction, confidence, probabilities) ← analyze_ecg_image (PIL image);
         marked_array ← mark_ecg_image img_array prediction;
         original_base64 ← image_to_base64 img_array;
         marked_base64 ← image_to_base64 marked_array;
         let explanation := get_explanation prediction in
         mret (list_to_map
           [("success", JBool true);
            ("prediction", JStr prediction);
            ("confidence", JFloat confidence);
            ("probabilities", JList (JFloat <$> probabilities));
            ("original_image", JStr original_base64);
            ("marked_image", JStr marked_base64);
            ("explanation", explanation)])
       end
     end)
    (λ e, mret (list_to_map
       [("success", JBool false); ("error", JStr (str_exn e))])).

End Route.

(** ** The marking table of the specification *)

#[global] Instance Qlt_decision (x y : Q) : Decision (x < y)%Q :=
  match Qlt_le_dec x y with
  | left Hlt => left Hlt
  | right Hle => right (Qle_not_lt _ _ Hle)
  end.

Section MarkingTable.
Context `{CV2}.

(** Bounding rectangles, in the given colour, around every contour whose
    area lies strictly between [lo] and [hi]; no limit on their number. *)
Definition draw_rectangles (lo hi : Q) (colour : pixel) (thickness : Z)
    (contours : list contour) (a : ndarray) : ndarray :=
  foldl (λ acc c, let '(x, y, w, h) := boundingRect c in
                  rectangle acc (x, y) (x + w, y + h) colour thickness)
        a (filter (λ c, (lo < contourArea c)%Q ∧ (contourArea c < hi)%Q) contours).

(** The first [limit] detected segments, in the given colour. *)
Definition draw_segments (limit : nat) (colour : pixel) (thickness : Z)
    (segments : list (Z * Z * Z * Z)) (a : ndarray) : ndarray :=
  foldl (λ acc '(x1, y1, x2, y2), line acc (x1, y1) (x2, y2) colour thickness)
        a (take limit segments).

Definition red : pixel := (255, 0, 0).
Definition green : pixel := (0, 255, 0).
Definition magenta : pixel := (255, 0, 255).

(** The edge map: fixed thresholds low=50, high=150. *)
Definition edges_of (a : ndarray) : edge_map := Canny (cvtColor_RGB2GRAY a) 50 150.

(** The pixels the specification's table prescribes for each label; any
    other label leaves the copy unmarked. *)
Definition annotate_pixels (label : string) (a : ndarray) : ndarray :=
  if decide (label = "Abnormal_Heartbeat") then
    draw_rectangles 30 300 red 2
      (findContours (edges_of a) RETR_EXTERNAL CHAIN_APPROX_SIMPLE) a
  else if decide (label = "Myocardial_Infarction") then
    draw_segments 12 green 3
      (default [] (HoughLinesP (edges_of a) 1 (PI / 180)%R 25 10 15)) a
  else if decide (label = "Normal_ECG") then
    draw_segments 10 green 2
      (default [] (HoughLinesP (edges_of a) 1 (PI / 180)%R 50 20 5)) a
  else if decide (label = "Post_MI_History") then
    draw_rectangles 25 250 magenta 2
      (findContours (edges_of a) RETR_EXTERNAL CHAIN_APPROX_SIMPLE) a
  else a.

End MarkingTable.

(** The closed set of labels of the marking table. *)
Definition known_labels : list string :=
  ["Abnormal_Heartbeat"; "Myocardial_Infarction"; "Normal_ECG"; "Post_MI_History"].

(** The message of the not-loaded failure (line 1061). *)
Definition not_loaded_message : string :=
  "Model not loaded. Please ensure trained_ecg_model.pth is available.".

Fixpoint contains (needle hay : string) : bool :=
  String.prefix needle hay ||
  match hay with
  | EmptyString => false
  | String _ rest => contains needle rest
  end.

(** A failure of classification that names the missing model, as opposed to
    whatever exception the interpreter raises when [None] is used as one. *)
Definition explicit_not_loaded {A} (o : outcome A) : Prop :=
  ∃ e, o = Raised e ∧ contains "Model not loaded" (str_exn e) = true.

Definition is_Some_returned {A} (o : outcome A) : Prop := ∃ a, o = Returned a.

(** The four output fields of a successful analysis. *)
Definition output_fields : list string :=
  ["prediction"; "confidence"; "probabilities"; "marked_image"].

(** The two shapes of the dict that [analyze] hands to [jsonify]. *)
Definition complete_success (resp : gmap string json) : Prop :=
  resp !! "success" = Some (JBool true) ∧
  resp !! "error" = None ∧
  Forall (λ k, is_Some (resp !! k)) output_fields.

Definition tagged_failure (resp : gmap string json) : Prop :=
  resp !! "success" = Some (JBool false) ∧
  (∃ msg, resp !! "error" = Some (JStr msg)) ∧
  Forall (λ k, resp !! k = None) output_fields.

(** ** Concrete libraries and worlds for the examples *)

Module Fixture.

Definition head_shapes : gmap string (list Z) :=
  {[ "head.fc.weight" := [4; 1024]; "head.fc.bias" := [4] ]}.

Definition f32 (n : Z) : float := {| float_bits := n |}.

Fixpoint argmax_from (best : Z) (besti i : nat) (l : list float) : nat :=
  match l with
  | [] => besti
  | x :: l' =>
    if (best <? float_bits x)%Z then argmax_from (float_bits x) i (S i) l'
    else argmax_from best besti (S i) l'
  end.

Definition first_largest (l : list float) : nat :=
  match l with
  | [] => 0%nat
  | x :: l' => argmax_from (float_bits x) 0 1 l'
  end.

Lemma argmax_from_bound (l : list float) :
  ∀ best besti i, (besti < i → argmax_from best besti i l < i + length l)%nat.
Proof.
  induction l as [|x l IH]; intros best besti i Hi; simpl; [lia|].
  destruct (best <? float_bits x)%Z.
  - specialize (IH (float_bits x) i (S i)). lia.
  - specialize (IH best besti (S i)). lia.
Defined.

#[export, refine] Instance torch : Torch := {|
  cuda_is_available := false;
  swin_shapes := head_shapes;
  state_dict_error := λ sd, "Error(s) in loading state_dict for SwinTransformer";
  tensor := ndarray;
  forward := λ m t, if training m then Returned (f32 <$> [0; 0; 0; 0])
                    else Returned (f32 <$> [1; 3; 2; 0]);
  softmax := λ l, l;
  argmax := first_largest
|}.
Proof.
  - intros m t l. destruct (training m); intros [= <-]; reflexivity.
  - reflexivity.
  - intros [|x l] Hne; [congruence|]. simpl.
    pose proof (argmax_from_bound l (float_bits x) 0%nat 1%nat). lia.
Defined.

Definition byte_pixel (b : Byte.byte) : pixel :=
  let v := Z.of_N (Byte.to_N b) in (v, v, v).

#[export] Instance imaging : Imaging := {|
  pil_image := ndarray;
  Image_open := λ bs, match bs with
                      | [] => Raised (UnidentifiedImageError "cannot identify image file")
                      | _ => Returned [byte_pixel <$> bs]
                      end;
  Image_fromarray := λ a, a;
  convert_RGB := λ p, Returned p;
  np_array := λ p, p;
  transform := λ p, p;
  save_jpeg := λ p, Returned [];
  b64encode := λ bs, ""
|}.

Definition paint (a : ndarray) (pt : Z * Z) (c : pixel) : ndarray :=
  alter (λ row, <[Z.to_nat pt.1 := c]> row) (Z.to_nat pt.2) a.

(** A contour is given by its area and its bounding rectangle; an edge map
    is the image itself. *)
#[export] Instance cv2 : CV2 := {|
  gray_image := ndarray;
  edge_map := ndarray;
  contour := Q * (Z * Z * Z * Z);
  cvtColor_RGB2GRAY := λ a, a;
  Canny := λ g lo hi, g;
  findContours := λ e mode method,
    [(10 # 1, (0, 0, 1, 1)); (100 # 1, (1, 0, 1, 0)); (30 # 1, (0, 0, 0, 0));
     (551 # 2, (2, 0, 0, 0)); (400 # 1, (0, 0, 2, 0))];
  contourArea := fst;
  boundingRect := snd;
  HoughLinesP := λ e rho theta threshold minLineLength maxLineGap,
    if decide (length e ≤ 1)%nat then None
    else Some (replicate 14 (0, 0, 1, 0) ++ [(2, 1, 2, 1)]);
  rectangle := λ a p1 p2 c t, paint (paint a p1 c) p2 c;
  line := λ a p1 p2 c t, paint (paint a p1 c) p2 c
|}.

Definition white : pixel := (255, 255, 255).
Definition strip : ndarray := [[white; white; white]; [white; white; white]].

Definition good_checkpoint : checkpoint := {|
  model_state_dict := Some {[ "head.fc.weight" := {| shape := [4; 1024]; values := [] |};
                              "head.fc.bias" := {| shape := [4]; values := [] |} ]};
  label_to_id := Some {[ "Abnormal_Heartbeat" := 0; "Myocardial_Infarction" := 1;
                         "Normal_ECG" := 2; "Post_MI_History" := 3 ]};
  id_to_label := Some {[ 0 := "Abnormal_Heartbeat"; 1 := "Myocardial_Infarction";
                         2 := "Normal_ECG"; 3 := "Post_MI_History" ]}
|}.

(** A readable checkpoint saved from a three-class head. *)
Definition mismatched_checkpoint : checkpoint := {|
  model_state_dict := Some {[ "head.fc.weight" := {| shape := [3; 1024]; values := [] |};
                              "head.fc.bias" := {| shape := [3] ; values := [] |} ]};
  label_to_id := label_to_id good_checkpoint;
  id_to_label := id_to_label good_checkpoint
|}.

(** A readable checkpoint that was saved without its label maps. *)
Definition unlabelled_checkpoint : checkpoint := {|
  model_state_dict := model_state_dict good_checkpoint;
  label_to_id := None;
  id_to_label := None
|}.

Definition path : string := "trained_ecg_model.pth".

(** The image as PIL hands it to classification. *)
Definition scan : image_arg := @PIL torch imaging strip.

(** The process after a successful start-up load. *)
Definition loaded : world :=
  (load_model path (boot {[ path := Pickled good_checkpoint ]})).2.

(** A process that holds one decoded image at reference 1. *)
Definition canvas : world := set_arrays {[ 1%positive := strip ]} (boot ∅).

End Fixture.

(** ** Start-up, and notions used to state further properties *)

Definition rule : string :=
  "============================================================".
Definition newline : string :=
  String (Ascii.Ascii false true false true false false false false) EmptyString.

(** Flask's [app.run(debug, host, port)]: it serves requests until the
    process is stopped.  What the server does with the process is left open. *)
Class Flask := {
  app_run : bool → string → Z → Py unit
}.

Section Startup.
Context `{Torch} `{Flask}.

(** Lines 1107-1120: the body of [if __name__ == '__main__']. *)
Definition main : Py unit :=
  print "Loading ECG AI model...";;
  load_model "trained_ecg_model.pth";;
  print "Model loaded successfully!";;
  print (newline +:+ rule);;
  print "🏥 ECG AI Health Assistant Starting...";;
  print rule;;
  print "📍 Access the application at: http://localhost:5000";;
  print (rule +:+ newline);;
  app_run true "0.0.0.0" 5000.

(** A checkpoint that [load_model] accepts: the state dict fits the
    architecture and both label maps are present. *)
Definition loadable (c : checkpoint) : Prop :=
  ∃ sd l2i i2l,
    model_state_dict c = Some sd ∧ shape <$> sd = swin_shapes ∧
    label_to_id c = Some l2i ∧ id_to_label c = Some i2l.

End Startup.

Definition set_disk (v : gmap string file) (w : world) : world :=
  {| MODEL := MODEL w; LABEL_TO_ID := LABEL_TO_ID w; ID_TO_LABEL := ID_TO_LABEL w;
     modules := modules w; arrays := arrays w; disk := v;
     disk_reads := disk_reads w; stdout := stdout w |}.

(** [j[k]] on a JSON object. *)
Definition json_field (k : string) (j : json) : option json :=
  match j with
  | JObject o => (list_to_map o : gmap string json) !! k
  | _ => None
  end.

Definition severity_tiers : list string := ["normal"; "warning"; "critical"; "monitor"].

(** [w'] has the globals, modules, disk and logs of [w], and every array of
    [w] with the same pixels; it may hold more arrays. *)
Definition extends (w w' : world) : Prop :=
  MODEL w' = MODEL w ∧ LABEL_TO_ID w' = LABEL_TO_ID w ∧
  ID_TO_LABEL w' = ID_TO_LABEL w ∧ modules w' = modules w ∧
  disk w' = disk w ∧ disk_reads w' = disk_reads w ∧ stdout w' = stdout w ∧
  arrays w ⊆ arrays w'.

(** A computation that only ever adds arrays to the process. *)
Definition frames {A} (m : Py A) : Prop := ∀ w, extends w (m w).2.

(** The dicts of lines 1061, 1065, 1098 and of lines 1087-1095. *)
Definition failure_dict (msg : string) : gmap string json :=
  list_to_map [("success", JBool false); ("error", JStr msg)].

Definition success_dict (prediction : string) (confidence : float)
    (probabilities : list float) (original marked : string) : gmap string json :=
  list_to_map
    [("success", JBool true);
     ("prediction", JStr prediction);
     ("confidence", JFloat confidence);
     ("probabilities", JList (JFloat <$> probabilities));
     ("original_image", JStr original);
     ("marked_image", JStr marked);
     ("explanation", get_explanation prediction)].

Section StructuredOutcome.
Context `{Imaging} `{CV2}.

(** The structured outcome the entry point owes its caller, read step by
    step: a failure naming the first step that failed, or the success dict
    once every step has succeeded. *)
Definition expected_response (req : request) (w : world) : gmap string json :=
  match MODEL w with
  | None => failure_dict not_loaded_message
  | Some _ =>
    match files req !! "file" with
    | None => failure_dict "No file uploaded"
    | Some image_bytes =>
      match Image_open image_bytes with
      | Raised e => failure_dict (str_exn e)
      | Returned image =>
        match convert_RGB image with
        | Raised e => failure_dict (str_exn e)
        | Returned rgb =>
          match (analyze_ecg_image (PIL image) w).1 with
          | Raised e => failure_dict (str_exn e)
          | Returned (prediction, confidence, probabilities) =>
            match save_jpeg (Image_fromarray (np_array rgb)) with
            | Raised e => failure_dict (str_exn e)
            | Returned original =>
              match save_jpeg (Image_fromarray
                                 (annotate_pixels prediction (np_array rgb))) with
              | Raised e => failure_dict (str_exn e)
              | Returned marked =>
                success_dict prediction confidence probabilities
                             (b64encode original) (b64encode marked)
              end
            end
          end
        end
      end
    end
  end.

End StructuredOutcome.

Module Quiet.

(** An OpenCV whose contours all sit on or outside the area bounds and whose
    line detector finds nothing. *)
Definition cv2 : CV2 := {|
  gray_image := ndarray;
  edge_map := ndarray;
  contour := Q * (Z * Z * Z * Z);
  cvtColor_RGB2GRAY := λ a, a;
  Canny := λ g lo hi, g;
  findContours := λ e mode method,
    [(30 # 1, (0, 0, 1, 1)); (300 # 1, (1, 0, 1, 0)); (10 # 1, (0, 0, 0, 0))];
  contourArea := fst;
  boundingRect := snd;
  HoughLinesP := λ e rho theta threshold minLineLength maxLineGap, None;
  rectangle := λ a p1 p2 c t, Fixture.paint (Fixture.paint a p1 c) p2 c;
  line := λ a p1 p2 c t, Fixture.paint (Fixture.paint a p1 c) p2 c
|}.

(** A server that returns at once. *)
Definition flask : Flask := {| app_run := λ debug host port, mret tt |}.

(** An upload of one byte, which the fixture decoder reads as a 1 x 1 image. *)
Definition upload : request := {| files := {[ "file" := [Byte.x41] ]} |}.

(** The process after a start-up load of a checkpoint that does not fit. *)
Definition half_loaded : world :=
  (load_model (H := Fixture.torch) Fixture.path
     (boot {[ Fixture.path := Pickled Fixture.mismatched_checkpoint ]})).2.

(** A loadable checkpoint whose label map uses other names. *)
Definition renamed_checkpoint : checkpoint := {|
  model_state_dict := model_state_dict Fixture.good_checkpoint;
  label_to_id := Some {[ "AHB" := 0; "MI" := 1; "NORM" := 2; "PMI" := 3 ]};
  id_to_label := Some {[ 0 := "AHB"; 1 := "MI"; 2 := "NORM"; 3 := "PMI" ]}
|}.

(** The process after a start-up load of that checkpoint. *)
Definition renamed : world :=
  (load_model (H := Fixture.torch) Fixture.path
     (boot {[ Fixture.path := Pickled renamed_checkpoint ]})).2.

(** The module that a successful load of the fixture checkpoint leaves. *)
Definition loaded_module : module :=
  {| weights := default ∅ (model_state_dict Fixture.good_checkpoint);
     training := false; on_device := cpu |}.

End Quiet.

(** * Properties *)

(** ** Stepping through the monad *)

Ltac py_step :=
  unfold try_except, getitem, print, lift, get, modify, raise,
    mbind, py_bind, mret, py_ret in *; simpl in *.

Lemma bind_returned {A B} (m : Py A) (k : A → Py B) w b w' :
  (m ≫= k) w = (Returned b, w') →
  ∃ a w1, m w = (Returned a, w1) ∧ k a w1 = (Returned b, w').
Proof.
  unfold mbind, py_bind. destruct (m w) as [[a|e] w1]; [eauto | discriminate].
Qed.

(** ** Model manager *)

Section ModelManagerFacts.
Context `{Torch}.

Lemma load_model_cached (p : string) (w : world) (m : positive) :
  MODEL w = Some m → load_model p w = (Returned (Some m), w).
Proof.
  intros Hm. unfold load_model. py_step. rewrite Hm. reflexivity.
Qed.


(** A load that fails before [torch.load] returns leaves the three globals
    as they were. *)
Lemma load_model_unreadable (p : string) (w : world) :
  MODEL w = None →
  (∀ c, disk w !! p ≠ Some (Pickled c)) →
  ∃ w', load_model p w = (Returned None, w') ∧
        MODEL w' = None ∧ LABEL_TO_ID w' = LABEL_TO_ID w ∧
        ID_TO_LABEL w' = ID_TO_LABEL w ∧ modules w' = modules w.
Proof.
  intros Hm Hd. unfold load_model, torch_load. py_step. rewrite Hm.
  destruct (disk w !! p) as [[|c]|] eqn:Hp; py_step.
  - eexists; split; [reflexivity|]. simpl. auto.
  - destruct (Hd c). reflexivity.
  - eexists; split; [reflexivity|]. simpl. auto.
Qed.

(** A load that fails after [torch.load] returned has already bound the
    global [MODEL] to the module it built (line 36). *)
Lemma load_model_failure_state (p : string) (w w' : world) :
  MODEL w = None →
  load_model p w = (Returned None, w') →
  is_Some (MODEL w') ↔ ∃ c, disk w !! p = Some (Pickled c).
Proof.
  intros Hm. unfold load_model, torch_load, create_model, load_state_dict,
    module_to, module_eval. py_step. rewrite Hm.
  destruct (disk w !! p) as [[|c]|] eqn:Hp; py_step.
  - intros [= <-]. simpl. rewrite Hm. split; [intros [? [=]] | intros [? [=]]].
  - assert (∃ c0, Some (Pickled c) = Some (Pickled c0)) as Hc by eauto.
    destruct (model_state_dict c) as [sd|]; py_step;
      [destruct (decide (shape <$> sd = swin_shapes)); py_step;
       [destruct (label_to_id c); py_step;
        [destruct (id_to_label c); py_step|]|]|];
      intros [= <-]; simpl; split; eauto.
  - intros [= <-]. simpl. rewrite Hm. split; [intros [? [=]] | intros [? [=]]].
Qed.


(** C10: with a model present, [load_model] returns it for every path,
    whether or not anything exists at that path, leaves the process state
    untouched and reads nothing from disk; any two paths give the same
    result. *)
Theorem load_model_ignores_path (w : world) (m : positive) (p q : string) :
  MODEL w = Some m →
  load_model p w = (Returned (Some m), w) ∧
  disk_reads (load_model p w).2 = disk_reads w ∧
  load_model q w = load_model p w.
Proof.
  intros Hm. rewrite !(load_model_cached _ _ _ Hm). auto.
Qed.

End ModelManagerFacts.

(** ** Classification *)

Section ClassificationFacts.
Context `{Imaging}.

(** Classification does return when a module is loaded, the image
    converts, the forward pass succeeds and [ID_TO_LABEL] knows the index. *)
Lemma analyze_ecg_image_run (p rgb : pil_image) (w : world) (r : positive)
    (m : module) (logits : list float) (d : gmap Z string) (l : string) :
  convert_RGB p = Returned rgb →
  MODEL w = Some r →
  modules w !! r = Some m →
  forward m (transform rgb) = Returned logits →
  ID_TO_LABEL w = Some d →
  d !! Z.of_nat (argmax logits) = Some l →
  ∃ c, analyze_ecg_image (PIL p) w = (Returned (l, c, softmax logits), w).
Proof.
  intros Hc Hm Hr Hf Hd Hl.
  assert (is_Some (softmax logits !! argmax logits)) as [c Hp].
  { apply lookup_lt_is_Some. rewrite softmax_length. apply argmax_bound.
    intros ->. pose proof (forward_num_classes _ _ _ Hf). discriminate. }
  exists c. unfold analyze_ecg_image, read_module. py_step.
  rewrite Hc, Hm, Hr, Hf, Hp, Hd, Hl. reflexivity.
Qed.

End ClassificationFacts.

(** ** Annotation *)

Lemma set_arrays_same (w : world) : set_arrays (arrays w) w = w.
Proof. destruct w; reflexivity. Qed.

Lemma set_arrays_twice (a b : gmap positive ndarray) (w : world) :
  set_arrays a (set_arrays b w) = set_arrays a w.
Proof. reflexivity. Qed.

Section AnnotationFacts.
Context `{CV2}.

Lemma between_spec (a x b : Q) : between a x b = true ↔ (a < x)%Q ∧ (x < b)%Q.
Proof.
  unfold between.
  destruct (Qlt_le_dec a x) as [Ha|Ha], (Qlt_le_dec x b) as [Hb|Hb];
    split; try discriminate; try tauto; intros [Hax Hxb].
  - destruct (Qle_not_lt _ _ Hb Hxb).
  - destruct (Qle_not_lt _ _ Ha Hax).
  - destruct (Qle_not_lt _ _ Ha Hax).
Qed.

Lemma cv2_line_run (img : positive) (pt1 pt2 : Z * Z) (colour : pixel)
    (thickness : Z) (a : ndarray) (w : world) :
  arrays w !! img = Some a →
  cv2_line img pt1 pt2 colour thickness w
  = (Returned tt, set_arrays (<[img := line a pt1 pt2 colour thickness]> (arrays w)) w).
Proof.
  intros Ha. unfold cv2_line, read_array. py_step. rewrite Ha. reflexivity.
Qed.

Lemma cv2_rectangle_run (img : positive) (pt1 pt2 : Z * Z) (colour : pixel)
    (thickness : Z) (a : ndarray) (w : world) :
  arrays w !! img = Some a →
  cv2_rectangle img pt1 pt2 colour thickness w
  = (Returned tt,
     set_arrays (<[img := rectangle a pt1 pt2 colour thickness]> (arrays w)) w).
Proof.
  intros Ha. unfold cv2_rectangle, read_array. py_step. rewrite Ha. reflexivity.
Qed.

(** The loop of lines 89-91 and 96-98 draws the segments in order. *)
Lemma for_each_line (img : positive) (colour : pixel) (thickness : Z)
    (segments : list (Z * Z * Z * Z)) :
  ∀ (a : ndarray) (w : world),
    arrays w !! img = Some a →
    for_each segments (λ '(x1, y1, x2, y2),
      cv2_line img (x1, y1) (x2, y2) colour thickness) w
    = (Returned tt,
       set_arrays (<[img := foldl (λ acc '(x1, y1, x2, y2),
                                     line acc (x1, y1) (x2, y2) colour thickness)
                                  a segments]> (arrays w)) w).
Proof.
  induction segments as [|[[[x1 y1] x2] y2] segments IH]; intros a w Ha.
  - simpl. rewrite (insert_id _ _ _ Ha), set_arrays_same. reflexivity.
  - simpl for_each. unfold mbind, py_bind.
    rewrite (cv2_line_run _ _ _ _ _ _ _ Ha).
    erewrite IH by (simpl; apply lookup_insert_eq).
    simpl. rewrite insert_insert_eq. reflexivity.
Qed.

(** The loop of lines 80-84 and 102-106 draws a rectangle for exactly the
    contours that pass the area test. *)
Lemma for_each_rectangle (img : positive) (lo hi : Q) (colour : pixel)
    (thickness : Z) (contours : list contour) :
  ∀ (a : ndarray) (w : world),
    arrays w !! img = Some a →
    for_each contours (λ c,
      let area := contourArea c in
      if between lo area hi then
        let '(x, y, w, h) := boundingRect c in
        cv2_rectangle img (x, y) (x + w, y + h) colour thickness
      else mret tt) w
    = (Returned tt,
       set_arrays (<[img := draw_rectangles lo hi colour thickness contours a]>
                     (arrays w)) w).
Proof.
  unfold draw_rectangles.
  induction contours as [|c contours IH]; intros a w Ha.
  - simpl. rewrite (insert_id _ _ _ Ha), set_arrays_same. reflexivity.
  - rewrite filter_cons. simpl for_each. unfold mbind, py_bind.
    destruct (between lo (contourArea c) hi) eqn:Hb.
    + apply between_spec in Hb. rewrite decide_True by exact Hb.
      simpl foldl. destruct (boundingRect c) as [[[x y] bw] bh].
      rewrite (cv2_rectangle_run _ _ _ _ _ _ _ Ha).
      erewrite IH by (simpl; apply lookup_insert_eq).
      simpl. rewrite insert_insert_eq. reflexivity.
    + rewrite decide_False by (rewrite <- between_spec, Hb; discriminate).
      unfold mret, py_ret. apply IH, Ha.
Qed.

(** What [mark_ecg_image] does to the heap, for every label: it allocates
    one new array, leaves in it the pixels of the marking table, and returns
    its reference. *)
Lemma mark_ecg_image_spec (img : positive) (label : string) (w : world)
    (src : ndarray) :
  arrays w !! img = Some src →
  mark_ecg_image img label w
  = (Returned (fresh (dom (arrays w))),
     set_arrays (<[fresh (dom (arrays w)) := annotate_pixels label src]> (arrays w)) w).
Proof.
  intros Hsrc.
  assert (fresh (dom (arrays w)) ≠ img) as Hne.
  { intros Heq. apply (is_fresh (dom (arrays w))). rewrite Heq.
    apply elem_of_dom. eauto. }
  set (r := fresh (dom (arrays w))) in *.
  set (w1 := set_arrays (<[r := src]> (arrays w)) w).
  assert (arrays w1 !! r = Some src) as Hr by (simpl; apply lookup_insert_eq).
  unfold mark_ecg_image, alloc_array, read_array.
  unfold mbind, py_bind, get. rewrite Hsrc. unfold mret at 1, py_ret.
  unfold modify. fold r. fold w1. unfold mret at 1, py_ret.
  assert (arrays w1 !! img = Some src) as Himg
    by (simpl; rewrite lookup_insert_ne by exact Hne; exact Hsrc).
  rewrite Himg. unfold mret at 1, py_ret.
  fold (edges_of src). unfold annotate_pixels.
  assert (∀ a : ndarray, set_arrays (<[r := a]> (arrays w1)) w1
                         = set_arrays (<[r := a]> (arrays w)) w) as Hfin
    by (intros a; unfold w1; simpl; rewrite set_arrays_twice, insert_insert_eq;
        reflexivity).
  assert (w1 = set_arrays (<[r := src]> (arrays w)) w) as Hw1 by reflexivity.
  destruct (String.eqb_spec label "Abnormal_Heartbeat") as [->|Hn1].
  { rewrite decide_True by reflexivity.
    rewrite (for_each_rectangle _ _ _ _ _ _ _ _ Hr), Hfin. reflexivity. }
  rewrite decide_False by exact Hn1.
  destruct (String.eqb_spec label "Myocardial_Infarction") as [->|Hn2].
  { rewrite decide_True by reflexivity. unfold draw_segments.
    destruct (HoughLinesP _ _ _ _ _ _) as [lines|]; simpl default.
    - rewrite (for_each_line _ _ _ _ _ _ Hr), Hfin. reflexivity.
    - rewrite take_nil. reflexivity. }
  rewrite decide_False by exact Hn2.
  destruct (String.eqb_spec label "Normal_ECG") as [->|Hn3].
  { rewrite decide_True by reflexivity. unfold draw_segments.
    destruct (HoughLinesP _ _ _ _ _ _) as [lines|]; simpl default.
    - rewrite (for_each_line _ _ _ _ _ _ Hr), Hfin. reflexivity.
    - rewrite take_nil. reflexivity. }
  rewrite decide_False by exact Hn3.
  destruct (String.eqb_spec label "Post_MI_History") as [->|Hn4].
  { rewrite decide_True by reflexivity.
    rewrite (for_each_rectangle _ _ _ _ _ _ _ _ Hr), Hfin. reflexivity. }
  rewrite decide_False by exact Hn4. reflexivity.
Qed.


Lemma annotate_pixels_unknown (label : string) (a : ndarray) :
  label ∉ known_labels → annotate_pixels label a = a.
Proof.
  intros Hl. unfold annotate_pixels, known_labels in *.
  repeat case_decide; try reflexivity; subst; destruct Hl; set_solver.
Qed.

Lemma annotate_pixels_infarct (a : ndarray) :
  annotate_pixels "Myocardial_Infarction" a
  = draw_segments 12 green 3
      (default [] (HoughLinesP (edges_of a) 1 (PI / 180)%R 25 10 15)) a.
Proof. reflexivity. Qed.

Lemma annotate_pixels_normal (a : ndarray) :
  annotate_pixels "Normal_ECG" a
  = draw_segments 10 green 2
      (default [] (HoughLinesP (edges_of a) 1 (PI / 180)%R 50 20 5)) a.
Proof. reflexivity. Qed.

Lemma annotate_pixels_abnormal (a : ndarray) :
  annotate_pixels "Abnormal_Heartbeat" a
  = draw_rectangles 30 300 red 2
      (findContours (edges_of a) RETR_EXTERNAL CHAIN_APPROX_SIMPLE) a.
Proof. reflexivity. Qed.

Lemma annotate_pixels_post_mi (a : ndarray) :
  annotate_pixels "Post_MI_History" a
  = draw_rectangles 25 250 magenta 2
      (findContours (edges_of a) RETR_EXTERNAL CHAIN_APPROX_SIMPLE) a.
Proof. reflexivity. Qed.


(** C5: for a label outside the four known ones, [mark_ecg_image] returns
    (it does not raise) a new array whose pixels equal the original's. *)
Theorem mark_ecg_image_unknown_label (img : positive) (label : string)
    (w : world) (src : ndarray) :
  label ∉ known_labels →
  arrays w !! img = Some src →
  ∃ r w', mark_ecg_image img label w = (Returned r, w') ∧
          r ≠ img ∧ arrays w' !! r = Some src ∧ arrays w' !! img = Some src.
Proof.
  intros Hl Hsrc. eexists _, _. split; [apply mark_ecg_image_spec, Hsrc|].
  assert (fresh (dom (arrays w)) ≠ img) as Hne.
  { intros Heq. apply (is_fresh (dom (arrays w))). rewrite Heq.
    apply elem_of_dom. eauto. }
  simpl. rewrite annotate_pixels_unknown by exact Hl. repeat split.
  - exact Hne.
  - apply lookup_insert_eq.
  - rewrite lookup_insert_ne by exact Hne. exact Hsrc.
Qed.

(** C7: for Myocardial_Infarction the detector runs on the edge map with
    vote threshold 25, minimum length 10 and maximum gap 15, and the first 12
    segments at most are drawn in green with thickness 3; for Normal_ECG it
    runs with threshold 50, minimum length 20 and maximum gap 5, and the first
    10 at most are drawn in green with thickness 2; when the detector
    reports nothing the call still returns and the copy is unmarked. *)
Theorem mark_ecg_image_segments (img : positive) (w : world) (src : ndarray) :
  arrays w !! img = Some src →
  let infarct := HoughLinesP (edges_of src) 1 (PI / 180)%R 25 10 15 in
  let normal := HoughLinesP (edges_of src) 1 (PI / 180)%R 50 20 5 in
  (∃ r w', mark_ecg_image img "Myocardial_Infarction" w = (Returned r, w') ∧
           arrays w' !! r
           = Some (foldl (λ acc '(x1, y1, x2, y2), line acc (x1, y1) (x2, y2) green 3)
                         src (take 12 (default [] infarct))) ∧
           (length (take 12 (default [] infarct)) ≤ 12)%nat ∧
           (infarct = None → arrays w' !! r = Some src)) ∧
  (∃ r w', mark_ecg_image img "Normal_ECG" w = (Returned r, w') ∧
           arrays w' !! r
           = Some (foldl (λ acc '(x1, y1, x2, y2), line acc (x1, y1) (x2, y2) green 2)
                         src (take 10 (default [] normal))) ∧
           (length (take 10 (default [] normal)) ≤ 10)%nat ∧
           (normal = None → arrays w' !! r = Some src)).
Proof.
  intros Hsrc infarct normal. split.
  - eexists _, _. split; [apply mark_ecg_image_spec, Hsrc|]. simpl.
    rewrite lookup_insert_eq, annotate_pixels_infarct. unfold draw_segments.
    fold infarct. split; [reflexivity|]. split.
    + rewrite length_take. lia.
    + intros ->. reflexivity.
  - eexists _, _. split; [apply mark_ecg_image_spec, Hsrc|]. simpl.
    rewrite lookup_insert_eq, annotate_pixels_normal. unfold draw_segments.
    fold normal. split; [reflexivity|]. split.
    + rewrite length_take. lia.
    + intros ->. reflexivity.
Qed.

(** C8: the edge map every branch works on is Canny at thresholds 50 and
    150 of the grey original; for Abnormal_Heartbeat every contour of it with
    area strictly between 30 and 300, and no other, gets its bounding
    rectangle drawn in red; for Post_MI_History the same with area strictly
    between 25 and 250, in magenta; the number drawn is the number that pass;
    and for every label the pixels of the result are those of the marking
    table computed from that one edge map. *)
Theorem mark_ecg_image_contours (img : positive) (w : world) (src : ndarray) :
  arrays w !! img = Some src →
  let contours :=
    findContours (Canny (cvtColor_RGB2GRAY src) 50 150) RETR_EXTERNAL CHAIN_APPROX_SIMPLE in
  let box colour := λ acc c, let '(x, y, bw, bh) := boundingRect c in
                             rectangle acc (x, y) (x + bw, y + bh) colour 2 in
  (∃ r w' drawn,
     mark_ecg_image img "Abnormal_Heartbeat" w = (Returned r, w') ∧
     arrays w' !! r = Some (foldl (box (255, 0, 0)) src drawn) ∧
     drawn = filter (λ c, (30 < contourArea c)%Q ∧ (contourArea c < 300)%Q) contours ∧
     (∀ c, c ∈ drawn ↔ c ∈ contours ∧ (30 < contourArea c)%Q ∧ (contourArea c < 300)%Q)) ∧
  (∃ r w' drawn,
     mark_ecg_image img "Post_MI_History" w = (Returned r, w') ∧
     arrays w' !! r = Some (foldl (box (255, 0, 255)) src drawn) ∧
     drawn = filter (λ c, (25 < contourArea c)%Q ∧ (contourArea c < 250)%Q) contours ∧
     (∀ c, c ∈ drawn ↔ c ∈ contours ∧ (25 < contourArea c)%Q ∧ (contourArea c < 250)%Q)) ∧
  (∀ label, ∃ r w',
     mark_ecg_image img label w = (Returned r, w') ∧
     arrays w' !! r = Some (annotate_pixels label src)).
Proof.
  intros Hsrc contours box. split; [|split].
  - eexists _, _, _. split; [apply mark_ecg_image_spec, Hsrc|]. simpl.
    rewrite lookup_insert_eq, annotate_pixels_abnormal. unfold draw_rectangles.
    split; [reflexivity|]. split; [reflexivity|].
    intros c. rewrite list_elem_of_filter. tauto.
  - eexists _, _, _. split; [apply mark_ecg_image_spec, Hsrc|]. simpl.
    rewrite lookup_insert_eq, annotate_pixels_post_mi. unfold draw_rectangles.
    split; [reflexivity|]. split; [reflexivity|].
    intros c. rewrite list_elem_of_filter. tauto.
  - intros label. eexists _, _. split; [apply mark_ecg_image_spec, Hsrc|].
    simpl. apply lookup_insert_eq.
Qed.

End AnnotationFacts.

(** ** The [/analyze] route *)

Section RouteFacts.
Context `{Imaging} `{CV2}.

Lemma failure_dict_tagged (msg : string) :
  tagged_failure (list_to_map [("success", JBool false); ("error", JStr msg)]).
Proof.
  split; [reflexivity|]. split; [eexists; reflexivity|].
  repeat constructor.
Qed.

Lemma analyze_ecg_image_needs_model (image : image_arg) (w : world) :
  MODEL w = None →
  ∃ e, analyze_ecg_image image w = (Raised e, w).
Proof.
  intros Hm. unfold analyze_ecg_image, read_array. py_step.
  destruct image as [p|a].
  - destruct (convert_RGB p); [rewrite Hm|]; eauto.
  - destruct (arrays w !! a); [|eauto].
    destruct (convert_RGB _); [rewrite Hm|]; eauto.
Qed.

(** C2, as the code has it: with [MODEL] unset, [analyze] answers every
    request with the failure dict that carries the not-loaded message and
    changes nothing; [analyze_ecg_image] has no such guard, it raises (a
    [TypeError] from calling [None] once the image has converted) and so
    never returns a label, a confidence or probabilities. *)
Theorem not_loaded_guard (req : request) (image : image_arg) (w : world) :
  MODEL w = None →
  analyze req w
  = (Returned (list_to_map [("success", JBool false);
                            ("error", JStr not_loaded_message)]), w) ∧
  (∀ r w', analyze_ecg_image image w ≠ (Returned r, w')) ∧
  (∀ p rgb, image = PIL p → convert_RGB p = Returned rgb →
     analyze_ecg_image image w
     = (Raised (TypeError "'NoneType' object is not callable"), w)).
Proof.
  intros Hm. split; [|split].
  - unfold analyze. py_step. rewrite Hm. reflexivity.
  - intros r w' Hr. destruct (analyze_ecg_image_needs_model image w Hm) as [e He].
    congruence.
  - intros p rgb -> Hc. unfold analyze_ecg_image. py_step. rewrite Hc, Hm.
    reflexivity.
Qed.

End RouteFacts.

(** ** The claims on concrete processes *)

Section Examples.
Import Fixture.

(** C1: a checkpoint that reads but does not fit the architecture makes
    [load_model] report failure ([None]) while the global [MODEL] stays bound
    to the module built before the weights were loaded, with both label maps
    unset; the next call takes that module for a loaded model and returns it
    without reading the disk again. *)
Theorem load_model_failed_load_keeps_model :
  let w := boot {[ path := Pickled mismatched_checkpoint ]} in
  let w1 := (load_model path w).2 in
  (load_model path w).1 = Returned None ∧
  MODEL w1 = Some 1%positive ∧
  LABEL_TO_ID w1 = None ∧
  ID_TO_LABEL w1 = None ∧
  weights <$> modules w1 !! 1%positive = Some (∅ : gmap string param) ∧
  load_model path w1 = (Returned (Some 1%positive), w1) ∧
  disk_reads w1 = [path].
Proof.
  cbv zeta. repeat split; vm_compute; reflexivity.
Qed.

(** The same with a checkpoint that lacks the label-map keys: the weights
    are in, the maps are not. *)
Lemma load_model_missing_labels_keeps_model :
  let w := boot {[ path := Pickled unlabelled_checkpoint ]} in
  let w1 := (load_model path w).2 in
  (load_model path w).1 = Returned None ∧
  MODEL w1 = Some 1%positive ∧
  LABEL_TO_ID w1 = None ∧
  ID_TO_LABEL w1 = None ∧
  training <$> modules w1 !! 1%positive = Some false ∧
  (load_model path w1).1 = Returned (Some 1%positive).
Proof.
  cbv zeta. repeat split; vm_compute; reflexivity.
Qed.


(** The claim of C2 fails for classification itself: with no model loaded,
    [analyze_ecg_image] ends in the interpreter's [TypeError] for calling
    [None], which says nothing about a model. *)
Lemma classify_unloaded_not_explicit :
  MODEL (boot ∅) = None ∧
  (analyze_ecg_image scan (boot ∅)).1
  = Raised (TypeError "'NoneType' object is not callable") ∧
  ¬ explicit_not_loaded (analyze_ecg_image scan (boot ∅)).1.
Proof.
  split; [reflexivity|].
  assert ((analyze_ecg_image scan (boot ∅)).1
          = Raised (TypeError "'NoneType' object is not callable")) as Heval
    by reflexivity.
  split; [exact Heval|]. rewrite Heval.
  intros (e & [= <-] & Hc). vm_compute in Hc. discriminate.
Qed.

Lemma not_loaded_guard_witness :
  MODEL (boot ∅) = None ∧
  analyze {| files := ∅ |} (boot ∅)
  = (Returned (list_to_map [("success", JBool false);
                            ("error", JStr not_loaded_message)]), boot ∅).
Proof.
  split; [reflexivity|].
  apply (not_loaded_guard {| files := ∅ |} scan (boot ∅)). reflexivity.
Defined.


Lemma mark_ecg_image_unknown_label_witness :
("Atrial_Fibrillation" ∉ known_labels) ∧
  arrays canvas !! 1%positive = Some strip ∧
  ∃ r w', mark_ecg_image 1%positive "Atrial_Fibrillation" canvas = (Returned r, w') ∧
          r ≠ 1%positive ∧ arrays w' !! r = Some strip ∧
          arrays w' !! 1%positive = Some strip.
Proof.
  assert ("Atrial_Fibrillation" ∉ known_labels) as Hl
    by (apply (bool_decide_unpack ("Atrial_Fibrillation" ∉ known_labels));
        vm_compute; exact I).
  split; [exact Hl|]. split; [reflexivity|].
  apply (mark_ecg_image_unknown_label 1%positive _ canvas strip Hl). reflexivity.
Defined.


Lemma load_model_ignores_path_witness :
  MODEL loaded = Some 1%positive ∧
  disk loaded !! "no_such_file.pth" = None ∧
  load_model "no_such_file.pth" loaded = (Returned (Some 1%positive), loaded) ∧
  load_model path loaded = load_model "no_such_file.pth" loaded.
Proof.
  assert (MODEL loaded = Some 1%positive) as Hm by (vm_compute; reflexivity).
  split; [exact Hm|]. split; [vm_compute; reflexivity|].
  destruct (load_model_ignores_path loaded 1%positive "no_such_file.pth" path Hm)
    as (Hret & _ & Hsame).
  split; [exact Hret | exact Hsame].
Defined.

Lemma mark_ecg_image_segments_witness :
  arrays canvas !! 1%positive = Some strip ∧
  ∃ r w', mark_ecg_image 1%positive "Myocardial_Infarction" canvas = (Returned r, w') ∧
          arrays w' !! r = Some [[green; green; white]; [white; white; white]].
Proof.
  split; [reflexivity|].
  destruct (mark_ecg_image_segments 1%positive canvas strip eq_refl)
    as [(r & w' & Hrun & Hpix & _) _].
  exists r, w'. split; [exact Hrun|]. refine (eq_trans Hpix _). reflexivity.
Defined.

Lemma mark_ecg_image_contours_witness :
  arrays canvas !! 1%positive = Some strip ∧
  ∃ r w', mark_ecg_image 1%positive "Abnormal_Heartbeat" canvas = (Returned r, w') ∧
          arrays w' !! r = Some [[white; red; red]; [white; white; white]].
Proof.
  split; [reflexivity|].
  destruct (mark_ecg_image_contours 1%positive canvas strip eq_refl)
    as [(r & w' & drawn & Hrun & Hpix & -> & _) _].
  exists r, w'. split; [exact Hrun|]. refine (eq_trans Hpix _). reflexivity.
Defined.

End Examples.

(** * Further properties of the code *)

(** ** Model manager and start-up *)

Section ModelManagerMore.
Context `{Torch}.

Lemma fitting_all (sd : gmap string param) :
  shape <$> sd = swin_shapes → fitting sd = sd.
Proof.
  intros Hfit. unfold fitting. apply map_filter_id. intros k x Hk. simpl.
  rewrite <- Hfit, lookup_fmap, Hk. reflexivity.
Qed.

Lemma load_model_unreadable_run (p : string) (w : world) (e : exn) :
  MODEL w = None →
  (disk w !! p = None ∧ e = FileNotFoundError p) ∨
  disk w !! p = Some (Unreadable e) →
  load_model p w
  = (Returned None,
     set_stdout (stdout w ++ ["Error loading model: " +:+ str_exn e])
       (set_disk_reads (disk_reads w ++ [p]) w)).
Proof.
  intros Hm Hd. unfold load_model, torch_load. py_step. rewrite Hm.
  destruct Hd as [[-> ->]| ->]; reflexivity.
Qed.

(** X1: a load that returns a model from an unloaded process has read a
    checkpoint that fits, exactly once, and has set all three globals: the
    model is a new module holding the checkpoint's weights, in evaluation
    mode, on [DEVICE], and the two label maps are the checkpoint's. *)
Theorem load_model_success_state (p : string) (w w' : world) (m : positive) :
  MODEL w = None →
  load_model p w = (Returned (Some m), w') →
  ∃ c sd l2i i2l,
    disk w !! p = Some (Pickled c) ∧
    model_state_dict c = Some sd ∧ shape <$> sd = swin_shapes ∧
    label_to_id c = Some l2i ∧ id_to_label c = Some i2l ∧
    MODEL w' = Some m ∧ LABEL_TO_ID w' = Some l2i ∧ ID_TO_LABEL w' = Some i2l ∧
    modules w !! m = None ∧
    modules w' !! m
    = Some {| weights := sd; training := false; on_device := DEVICE |} ∧
    disk_reads w' = disk_reads w ++ [p] ∧ stdout w' = stdout w.
Proof.
  intros Hm.
  unfold load_model, torch_load, create_model, load_state_dict, module_to, module_eval.
  py_step. rewrite Hm.
  destruct (disk w !! p) as [[|c]|] eqn:Hp; py_step; try discriminate.
  destruct (model_state_dict c) as [sd|] eqn:Hsd; py_step; try discriminate.
  destruct (decide (shape <$> sd = swin_shapes)) as [Hfit|]; py_step; try discriminate.
  destruct (label_to_id c) as [l2i|] eqn:Hl; py_step; try discriminate.
  destruct (id_to_label c) as [i2l|] eqn:Hi; py_step; try discriminate.
  intros [= <- <-]. exists c, sd, l2i, i2l. simpl.
  rewrite !lookup_alter_eq, lookup_insert_eq. simpl.
  rewrite (fitting_all _ Hfit), (right_id_L ∅ (∪)).
  repeat split; try assumption; try reflexivity.
  apply not_elem_of_dom, is_fresh.
Qed.

Lemma load_model_loadable (p : string) (w : world) (c : checkpoint) :
  MODEL w = None →
  disk w !! p = Some (Pickled c) →
  loadable c →
  ∃ m w', load_model p w = (Returned (Some m), w') ∧
          MODEL w' = Some m ∧
          LABEL_TO_ID w' = label_to_id c ∧ ID_TO_LABEL w' = id_to_label c ∧
          (Some ∘ weights <$> modules w' !! m) = Some (model_state_dict c).
Proof.
  intros Hm Hp (sd & l2i & i2l & Hsd & Hfit & Hl & Hi).
  unfold load_model, torch_load, create_model, load_state_dict, module_to, module_eval.
  py_step. rewrite Hm, Hp. py_step. rewrite Hsd. py_step.
  rewrite (decide_True _ _ Hfit). py_step. rewrite Hl. py_step. rewrite Hi. py_step.
  eexists _, _. split; [reflexivity|]. simpl.
  rewrite !lookup_alter_eq, lookup_insert_eq. simpl.
  rewrite (fitting_all _ Hfit), (right_id_L ∅ (∪)). auto.
Qed.

(** X2: from an unloaded process, a path that holds a loadable checkpoint
    always loads: the call returns a model, binds the three globals to that
    model and to the checkpoint's label maps, and the model carries the
    checkpoint's weights. *)
Theorem load_model_succeeds (p : string) (w : world) (c : checkpoint) :
  MODEL w = None →
  disk w !! p = Some (Pickled c) →
  loadable c →
  ∃ m w', load_model p w = (Returned (Some m), w') ∧
          MODEL w' = Some m ∧
          LABEL_TO_ID w' = label_to_id c ∧ ID_TO_LABEL w' = id_to_label c ∧
          (Some ∘ weights <$> modules w' !! m) = Some (model_state_dict c).
Proof. apply load_model_loadable. Qed.

(** X3: [load_model] never raises.  It leaves the disk, the arrays and
    every module that existed untouched; when it returns [None] the process
    had no model before and exactly one line starting with
    "Error loading model: " was printed; when it returns a model nothing
    was printed. *)
Theorem load_model_never_raises (p : string) (w : world) :
  ∃ r w', load_model p w = (Returned r, w') ∧
          disk w' = disk w ∧ arrays w' = arrays w ∧ modules w ⊆ modules w' ∧
          (r = None → MODEL w = None ∧
             ∃ e, stdout w' = stdout w ++ ["Error loading model: " +:+ str_exn e]) ∧
          (is_Some r → stdout w' = stdout w).
Proof.
  assert (∀ f g h (x : module),
    modules w ⊆ alter h (fresh (dom (modules w)))
                  (alter g (fresh (dom (modules w)))
                     (alter f (fresh (dom (modules w)))
                        (<[fresh (dom (modules w)) := x]> (modules w))))) as Hsub3.
  { intros f g h x. rewrite !alter_insert_eq. apply insert_subseteq.
    apply not_elem_of_dom, is_fresh. }
  assert (∀ f (x : module),
    modules w ⊆ alter f (fresh (dom (modules w)))
                  (<[fresh (dom (modules w)) := x]> (modules w))) as Hsub1.
  { intros f x. rewrite !alter_insert_eq. apply insert_subseteq.
    apply not_elem_of_dom, is_fresh. }
  assert (∀ x : module, modules w ⊆ <[fresh (dom (modules w)) := x]> (modules w)) as Hsub0.
  { intros x. apply insert_subseteq, not_elem_of_dom, is_fresh. }
  assert (modules w ⊆ modules w) as Hsub by reflexivity.
  unfold load_model, torch_load, create_model, load_state_dict, module_to, module_eval.
  py_step.
  destruct (MODEL w) as [m0|] eqn:Hm;
    [|destruct (disk w !! p) as [[e0|c]|] eqn:Hp; py_step;
      [| destruct (model_state_dict c) as [sd|]; py_step;
         [destruct (decide (shape <$> sd = swin_shapes)); py_step;
          [destruct (label_to_id c); py_step;
           [destruct (id_to_label c); py_step|]|]|] |]];
    (eexists _, _; split; [reflexivity|]); simpl;
    (split; [reflexivity|]); (split; [reflexivity|]);
    (split; [first [apply Hsub | apply Hsub3 | apply Hsub1 | apply Hsub0]|]);
    (split;
     [ intros Hr;
       first [ discriminate Hr
             | split; [reflexivity|];
               first [ exists (FileNotFoundError p); reflexivity
                     | exists e0; reflexivity
                     | exists (KeyError "model_state_dict"); reflexivity
                     | exists (KeyError "label_to_id"); reflexivity
                     | exists (KeyError "id_to_label"); reflexivity
                     | exists (RuntimeError (state_dict_error sd)); reflexivity ] ]
     | intros Hs; first [reflexivity | destruct Hs as [? [=]]] ]).
Qed.

(** X4: a load that failed because the file was missing or unreadable can
    be retried: once a loadable checkpoint is at that path, the next call
    returns a model and binds the globals. *)
Theorem load_model_retry_after_unreadable (p : string) (w : world) (c : checkpoint) :
  MODEL w = None →
  (∀ c0, disk w !! p ≠ Some (Pickled c0)) →
  loadable c →
  (load_model p w).1 = Returned None ∧
  ∃ m w2,
    load_model p (set_disk (<[p := Pickled c]> (disk (load_model p w).2))
                           (load_model p w).2)
    = (Returned (Some m), w2) ∧
    MODEL w2 = Some m ∧
    LABEL_TO_ID w2 = label_to_id c ∧ ID_TO_LABEL w2 = id_to_label c.
Proof.
  intros Hm Hd Hc.
  destruct (load_model_unreadable p w Hm Hd) as (w1 & Hrun & Hm1 & _).
  rewrite Hrun. simpl. split; [reflexivity|].
  destruct (load_model_loadable p (set_disk (<[p := Pickled c]> (disk w1)) w1) c)
    as (m & w2 & Hrun2 & Hg & Hl & Hi & _).
  - exact Hm1.
  - simpl. apply lookup_insert_eq.
  - exact Hc.
  - exists m, w2. auto.
Qed.

(** X5: when the file is missing or unreadable, start-up reaches
    [app.run] without raising: the server is started in a process whose
    [MODEL] is unset and whose output reads "Model loaded successfully!"
    right after the error line, followed by the banner. *)
Theorem main_announces_success_without_model `{Flask} (w : world) (e : exn) :
  MODEL w = None →
  (disk w !! "trained_ecg_model.pth" = None ∧
   e = FileNotFoundError "trained_ecg_model.pth") ∨
  disk w !! "trained_ecg_model.pth" = Some (Unreadable e) →
  ∃ w1, main w = app_run true "0.0.0.0" 5000 w1 ∧
        MODEL w1 = None ∧
        stdout w1
        = stdout w ++
          ["Loading ECG AI model...";
           "Error loading model: " +:+ str_exn e;
           "Model loaded successfully!";
           newline +:+ rule;
           "🏥 ECG AI Health Assistant Starting...";
           rule;
           "📍 Access the application at: http://localhost:5000";
           rule +:+ newline].
Proof.
  intros Hm Hd. unfold main.
  unfold print, modify, mbind, py_bind.
  rewrite (load_model_unreadable_run _ _ e) by (simpl; assumption).
  eexists. split; [reflexivity|]. simpl. split; [exact Hm|].
  rewrite <- !app_assoc. reflexivity.
Qed.

End ModelManagerMore.

(** ** Explanations *)

Lemma explanations_unknown (label : string) :
  label ∉ known_labels → explanations !! label = None.
Proof.
  intros Hl. apply not_elem_of_list_to_map_1. exact Hl.
Qed.

Lemma known_labels_cases (label : string) :
  label ∈ known_labels →
  label = "Abnormal_Heartbeat" ∨ label = "Myocardial_Infarction" ∨
  label = "Normal_ECG" ∨ label = "Post_MI_History".
Proof.
  unfold known_labels. rewrite !elem_of_cons, elem_of_nil. tauto.
Qed.

Lemma get_explanation_unknown (label : string) :
  label ∉ known_labels → get_explanation label = get_explanation "Normal_ECG".
Proof.
  intros Hl. unfold get_explanation at 1. rewrite (explanations_unknown _ Hl).
  reflexivity.
Qed.

(** X6: a label outside the four known ones gets the Normal_ECG record. *)
Theorem get_explanation_fallback (label : string) :
  label ∉ known_labels →
  get_explanation label = get_explanation "Normal_ECG" ∧
  json_field "title" (get_explanation label) = Some (JStr "Normal ECG Pattern").
Proof.
  intros Hl. rewrite (get_explanation_unknown _ Hl). split; reflexivity.
Qed.

(** X7: for every string, known label or not, [get_explanation] yields a
    record with a title, a severity out of normal, warning, critical and
    monitor, an icon, exactly four findings and a recommendation. *)
Theorem get_explanation_well_formed (label : string) :
  ∃ title severity icon f1 f2 f3 f4 recommendation,
    get_explanation label
    = explanation_record title severity icon [f1; f2; f3; f4] recommendation ∧
    severity ∈ severity_tiers.
Proof.
  destruct (decide (label ∈ known_labels)) as [Hin|Hout].
  - apply known_labels_cases in Hin as [-> | [-> | [-> | ->]]];
      eexists _, _, _, _, _, _, _, _; (split; [lazy; reflexivity|]);
      apply list_elem_of_In; simpl; tauto.
  - rewrite (get_explanation_unknown _ Hout).
    eexists _, _, _, _, _, _, _, _. split; [lazy; reflexivity|].
    apply list_elem_of_In; simpl; tauto.
Qed.

(** X8: the severity shown is "critical" for Myocardial_Infarction and for
    no other string. *)
Theorem get_explanation_critical (label : string) :
  json_field "severity" (get_explanation label) = Some (JStr "critical")
  ↔ label = "Myocardial_Infarction".
Proof.
  split.
  - destruct (decide (label ∈ known_labels)) as [Hin|Hout].
    + apply known_labels_cases in Hin as [-> | [-> | [-> | ->]]];
        first [reflexivity | intros Hs; vm_compute in Hs; discriminate Hs].
    + rewrite (get_explanation_unknown _ Hout).
      intros Hs. vm_compute in Hs. discriminate Hs.
  - intros ->. reflexivity.
Qed.

(** ** Classification, further *)

Section ClassificationMore.
Context `{Imaging}.

(** What a returning call of [analyze_ecg_image] went through. *)
Lemma analyze_ecg_image_returned (image : image_arg) (w w' : world)
    (label : string) (conf : float) (probs : list float) :
  analyze_ecg_image image w = (Returned (label, conf, probs), w') →
  w' = w ∧
  ∃ r m p rgb logits d,
    MODEL w = Some r ∧ modules w !! r = Some m ∧
    (image = PIL p ∨
     ∃ a arr, image = Array a ∧ arrays w !! a = Some arr ∧ p = Image_fromarray arr) ∧
    convert_RGB p = Returned rgb ∧
    forward m (transform rgb) = Returned logits ∧
    probs = softmax logits ∧
    softmax logits !! argmax logits = Some conf ∧
    ID_TO_LABEL w = Some d ∧
    d !! Z.of_nat (argmax logits) = Some label.
Proof.
  unfold analyze_ecg_image, read_array, read_module. py_step.
  destruct image as [p|a].
  - destruct (convert_RGB p) as [rgb|] eqn:Hc; [|discriminate].
    destruct (MODEL w) as [r|] eqn:Hm; [|discriminate].
    destruct (modules w !! r) as [m|] eqn:Hr; [|discriminate].
    destruct (forward m (transform rgb)) as [logits|] eqn:Hf; [|discriminate].
    destruct (softmax logits !! argmax logits) as [c|] eqn:Hp; [|discriminate].
    destruct (ID_TO_LABEL w) as [d|] eqn:Hd; [|discriminate].
    destruct (d !! Z.of_nat (argmax logits)) as [l|] eqn:Hl; [|discriminate].
    intros [= <- <- <- <-]. split; [reflexivity|].
    exists r, m, p, rgb, logits, d. repeat split; auto.
  - destruct (arrays w !! a) as [arr|] eqn:Ha; [|discriminate].
    destruct (convert_RGB (Image_fromarray arr)) as [rgb|] eqn:Hc; [|discriminate].
    destruct (MODEL w) as [r|] eqn:Hm; [|discriminate].
    destruct (modules w !! r) as [m|] eqn:Hr; [|discriminate].
    destruct (forward m (transform rgb)) as [logits|] eqn:Hf; [|discriminate].
    destruct (softmax logits !! argmax logits) as [c|] eqn:Hp; [|discriminate].
    destruct (ID_TO_LABEL w) as [d|] eqn:Hd; [|discriminate].
    destruct (d !! Z.of_nat (argmax logits)) as [l|] eqn:Hl; [|discriminate].
    intros [= <- <- <- <-]. split; [reflexivity|].
    exists r, m, (Image_fromarray arr), rgb, logits, d. repeat split; eauto 10.
Qed.

(** Classification reads the process state and never writes it, whether it
    returns or raises. *)
Lemma analyze_ecg_image_world (image : image_arg) (w : world) :
  (analyze_ecg_image image w).2 = w.
Proof.
  unfold analyze_ecg_image, read_array, read_module. py_step.
  destruct image as [p|a]; [|destruct (arrays w !! a); [|reflexivity]];
    (destruct (convert_RGB _); [|reflexivity]);
    (destruct (MODEL w) as [r|]; [|reflexivity]);
    (destruct (modules w !! r) as [m|]; [|reflexivity]);
    (destruct (forward m _) as [logits|]; [|reflexivity]);
    (destruct (softmax logits !! argmax logits); [|reflexivity]);
    (destruct (ID_TO_LABEL w) as [d|]; [|reflexivity]);
    (destruct (d !! Z.of_nat (argmax logits)); reflexivity).
Qed.

(** X11: while [ID_TO_LABEL] is unset, classification returns no result,
    whatever module [MODEL] is bound to. *)
Theorem classification_needs_label_map (image : image_arg) (w : world) :
  ID_TO_LABEL w = None →
  ∀ r w', analyze_ecg_image image w ≠ (Returned r, w').
Proof.
  intros Hnone [[label conf] probs] w' Hrun.
  destruct (analyze_ecg_image_returned _ _ _ _ _ _ Hrun)
    as (_ & r & m & p & rgb & logits & d & _ & _ & _ & _ & _ & _ & _ & Hd & _).
  congruence.
Qed.

End ClassificationMore.

(** ** Annotation, further *)

Section AnnotationMore.
Context `{CV2}.

Lemma draw_rectangles_none (lo hi : Q) (colour : pixel) (thickness : Z)
    (contours : list contour) (a : ndarray) :
  Forall (λ c, (contourArea c <= lo)%Q ∨ (hi <= contourArea c)%Q) contours →
  draw_rectangles lo hi colour thickness contours a = a.
Proof.
  unfold draw_rectangles. induction 1 as [|c contours Hc _ IH]; [reflexivity|].
  rewrite filter_cons, decide_False; [exact IH|].
  intros [Hlo Hhi]. destruct Hc as [Hc|Hc].
  - exact (Qle_not_lt _ _ Hc Hlo).
  - exact (Qle_not_lt _ _ Hc Hhi).
Qed.

(** X12: when no contour has its area strictly inside the label's bounds
    (an area equal to a bound does not count), the contour labels return a
    copy with the pixels of the original. *)
Theorem mark_ecg_image_no_qualifying_contour (img : positive) (label : string)
    (lo hi : Q) (w : world) (src : ndarray) :
  arrays w !! img = Some src →
  (label = "Abnormal_Heartbeat" ∧ lo = 30%Q ∧ hi = 300%Q) ∨
  (label = "Post_MI_History" ∧ lo = 25%Q ∧ hi = 250%Q) →
  Forall (λ c, (contourArea c <= lo)%Q ∨ (hi <= contourArea c)%Q)
         (findContours (Canny (cvtColor_RGB2GRAY src) 50 150)
                       RETR_EXTERNAL CHAIN_APPROX_SIMPLE) →
  ∃ r w', mark_ecg_image img label w = (Returned r, w') ∧
          r ≠ img ∧ arrays w' !! r = Some src.
Proof.
  intros Hsrc Hl Hall. eexists _, _. split; [apply mark_ecg_image_spec, Hsrc|].
  assert (fresh (dom (arrays w)) ≠ img) as Hne.
  { intros Heq. apply (is_fresh (dom (arrays w))). rewrite Heq.
    apply elem_of_dom. eauto. }
  split; [exact Hne|]. simpl. rewrite lookup_insert_eq. f_equal.
  destruct Hl as [(-> & -> & ->)|(-> & -> & ->)].
  - rewrite annotate_pixels_abnormal. apply draw_rectangles_none, Hall.
  - rewrite annotate_pixels_post_mi. apply draw_rectangles_none, Hall.
Qed.

(** X13: marking the same image twice, with any two labels, gives two
    different new arrays, each holding the marking for its own label; the
    second call leaves the first result and the original as they were. *)
Theorem mark_ecg_image_twice (img : positive) (l1 l2 : string) (w : world)
    (src : ndarray) :
  arrays w !! img = Some src →
  ∃ r1 w1 r2 w2,
    mark_ecg_image img l1 w = (Returned r1, w1) ∧
    mark_ecg_image img l2 w1 = (Returned r2, w2) ∧
    r1 ≠ img ∧ r2 ≠ img ∧ r1 ≠ r2 ∧
    arrays w2 !! img = Some src ∧
    arrays w2 !! r1 = Some (annotate_pixels l1 src) ∧
    arrays w2 !! r2 = Some (annotate_pixels l2 src).
Proof.
  intros Hsrc.
  assert (fresh (dom (arrays w)) ≠ img) as Hne1.
  { intros Heq. apply (is_fresh (dom (arrays w))). rewrite Heq.
    apply elem_of_dom. eauto. }
  set (r1 := fresh (dom (arrays w))) in *.
  set (w1 := set_arrays (<[r1 := annotate_pixels l1 src]> (arrays w)) w).
  assert (arrays w1 !! img = Some src) as Hsrc1
    by (simpl; rewrite lookup_insert_ne by exact Hne1; exact Hsrc).
  assert (arrays w1 !! r1 = Some (annotate_pixels l1 src)) as Hr1
    by (simpl; apply lookup_insert_eq).
  set (r2 := fresh (dom (arrays w1))).
  assert (r2 ≠ img) as Hne2.
  { intros Heq. apply (is_fresh (dom (arrays w1))). fold r2. rewrite Heq.
    apply elem_of_dom. eauto. }
  assert (r2 ≠ r1) as Hne12.
  { intros Heq. apply (is_fresh (dom (arrays w1))). fold r2. rewrite Heq.
    apply elem_of_dom. eauto. }
  exists r1, w1, r2, (set_arrays (<[r2 := annotate_pixels l2 src]> (arrays w1)) w1).
  split; [apply mark_ecg_image_spec, Hsrc|].
  split; [apply mark_ecg_image_spec, Hsrc1|].
  split; [exact Hne1|]. split; [exact Hne2|]. split; [congruence|].
  cbn [arrays set_arrays]. split; [|split].
  - rewrite lookup_insert_ne by exact Hne2. exact Hsrc1.
  - rewrite lookup_insert_ne by exact Hne12. exact Hr1.
  - apply lookup_insert_eq.
Qed.

Lemma extends_refl (w : world) : extends w w.
Proof. unfold extends. repeat split; reflexivity. Qed.

Lemma extends_trans (w1 w2 w3 : world) :
  extends w1 w2 → extends w2 w3 → extends w1 w3.
Proof.
  unfold extends.
  intros (? & ? & ? & ? & ? & ? & ? & ?) (? & ? & ? & ? & ? & ? & ? & ?).
  repeat split; try congruence. etransitivity; eassumption.
Qed.

Lemma frames_ret {A} (a : A) : frames (mret a).
Proof. intros w. apply extends_refl. Qed.

Lemma frames_lift {A} (o : outcome A) : frames (lift o).
Proof. intros w. apply extends_refl. Qed.

Lemma frames_get : frames get.
Proof. intros w. apply extends_refl. Qed.

Lemma frames_bind {A B} (m : Py A) (k : A → Py B) :
  frames m → (∀ a, frames (k a)) → frames (m ≫= k).
Proof.
  intros Hm Hk w. unfold mbind, py_bind. specialize (Hm w).
  destruct (m w) as [[a|e] w1]; simpl in *; [|exact Hm].
  eapply extends_trans; [exact Hm | apply Hk].
Qed.

Lemma frames_try {A} (body : Py A) (handler : exn → Py A) :
  frames body → (∀ e, frames (handler e)) → frames (try_except body handler).
Proof.
  intros Hb Hh w. unfold try_except. specialize (Hb w).
  destruct (body w) as [[a|e] w1]; simpl in *; [exact Hb|].
  eapply extends_trans; [exact Hb | apply Hh].
Qed.

Lemma frames_alloc_array (a : ndarray) : frames (alloc_array a).
Proof.
  intros w. unfold alloc_array. py_step. unfold extends. simpl.
  repeat split; try reflexivity.
  apply insert_subseteq, not_elem_of_dom, is_fresh.
Qed.

Lemma frames_mark_ecg_image (img : positive) (label : string) :
  frames (mark_ecg_image img label).
Proof.
  intros w. destruct (arrays w !! img) as [src|] eqn:Hsrc.
  - rewrite (mark_ecg_image_spec _ _ _ _ Hsrc). unfold extends. simpl.
    repeat split; try reflexivity.
    apply insert_subseteq, not_elem_of_dom, is_fresh.
  - unfold mark_ecg_image, read_array. py_step. rewrite Hsrc. simpl.
    apply extends_refl.
Qed.

End AnnotationMore.

(** ** The [/analyze] route, further *)

Section RouteMore.
Context `{Imaging} `{CV2}.

Lemma frames_read_array (r : positive) : frames (read_array r).
Proof.
  intros w. unfold read_array. py_step.
  destruct (arrays w !! r); apply extends_refl.
Qed.

Lemma frames_analyze_ecg_image (image : image_arg) : frames (analyze_ecg_image image).
Proof. intros w. rewrite analyze_ecg_image_world. apply extends_refl. Qed.

Lemma frames_image_to_base64 (r : positive) : frames (image_to_base64 r).
Proof.
  unfold image_to_base64. apply frames_bind; [apply frames_read_array|].
  intros a. apply frames_bind; [apply frames_lift|]. intros j. apply frames_ret.
Qed.

Lemma frames_analyze (req : request) : frames (analyze req).
Proof.
  unfold analyze. apply frames_try; [|intros e; apply frames_ret].
  apply frames_bind; [apply frames_get|]. intros w0.
  destruct (MODEL w0); [|apply frames_ret].
  destruct (files req !! "file"); [|apply frames_ret].
  apply frames_bind; [apply frames_lift|]. intros image.
  apply frames_bind; [apply frames_lift|]. intros rgb.
  apply frames_bind; [apply frames_alloc_array|]. intros img_array.
  apply frames_bind; [apply frames_analyze_ecg_image|].
  intros [[prediction confidence] probabilities].
  apply frames_bind; [apply frames_mark_ecg_image|]. intros marked_array.
  apply frames_bind; [apply frames_image_to_base64|]. intros original_base64.
  apply frames_bind; [apply frames_image_to_base64|]. intros marked_base64.
  apply frames_ret.
Qed.

(** X14: whatever the request and however it ends, [analyze] leaves the
    three globals, the modules, the disk and both logs as they were, and every
    array that existed keeps its pixels. *)
Theorem analyze_keeps_shared_state (req : request) (w : world) :
  MODEL (analyze req w).2 = MODEL w ∧
  LABEL_TO_ID (analyze req w).2 = LABEL_TO_ID w ∧
  ID_TO_LABEL (analyze req w).2 = ID_TO_LABEL w ∧
  modules (analyze req w).2 = modules w ∧
  disk (analyze req w).2 = disk w ∧
  disk_reads (analyze req w).2 = disk_reads w ∧
  stdout (analyze req w).2 = stdout w ∧
  (∀ k a, arrays w !! k = Some a → arrays (analyze req w).2 !! k = Some a).
Proof.
  destruct (frames_analyze req w) as (? & ? & ? & ? & ? & ? & ? & Hsub).
  repeat split; try assumption.
  intros k a Hk. eapply lookup_weaken; eassumption.
Qed.

Lemma image_to_base64_returned (r : positive) (w w' : world) (s : string) :
  image_to_base64 r w = (Returned s, w') →
  w' = w ∧ ∃ a j, arrays w !! r = Some a ∧
                  save_jpeg (Image_fromarray a) = Returned j ∧ s = b64encode j.
Proof.
  unfold image_to_base64, read_array. py_step.
  destruct (arrays w !! r) as [a|]; [|discriminate].
  destruct (save_jpeg (Image_fromarray a)) as [j|] eqn:Hj; [|discriminate].
  intros [= <- <-]. eauto 10.
Qed.

Lemma image_to_base64_run (r : positive) (w : world) (a : ndarray)
    (j : list Byte.byte) :
  arrays w !! r = Some a →
  save_jpeg (Image_fromarray a) = Returned j →
  image_to_base64 r w = (Returned (b64encode j), w).
Proof.
  intros Ha Hj. unfold image_to_base64, read_array. py_step. rewrite Ha, Hj.
  reflexivity.
Qed.

(** The two ways [analyze] can end. *)
Lemma analyze_cases (req : request) (w w' : world) (resp : gmap string json) :
  analyze req w = (Returned resp, w') →
  (∃ msg, resp = failure_dict msg) ∨
  (∃ r bytes image rgb label conf probs j1 j2,
     MODEL w = Some r ∧
     files req !! "file" = Some bytes ∧
     Image_open bytes = Returned image ∧
     convert_RGB image = Returned rgb ∧
     analyze_ecg_image (PIL image) (alloc_array (np_array rgb) w).2
     = (Returned (label, conf, probs), (alloc_array (np_array rgb) w).2) ∧
     save_jpeg (Image_fromarray (np_array rgb)) = Returned j1 ∧
     save_jpeg (Image_fromarray (annotate_pixels label (np_array rgb))) = Returned j2 ∧
     resp = success_dict label conf probs (b64encode j1) (b64encode j2)).
Proof.
  unfold analyze, try_except.
  match goal with
  | |- context [match ?b w with _ => _ end] =>
      destruct (b w) as [[resp0|e] w1] eqn:Hbody
  end.
  2: { intros [= <- <-]. left. eexists. reflexivity. }
  intros [= <- <-].
  apply bind_returned in Hbody as (w0 & w2 & Hget & Hbody).
  injection Hget as <- <-.
  destruct (MODEL w) as [r|] eqn:Hm.
  2: { injection Hbody as <- <-. left. eexists. reflexivity. }
  destruct (files req !! "file") as [bytes|] eqn:Hfile.
  2: { injection Hbody as <- <-. left. eexists. reflexivity. }
  apply bind_returned in Hbody as (image & w3 & Hopen & Hbody).
  unfold lift in Hopen. injection Hopen as Hopen <-.
  apply bind_returned in Hbody as (rgb & w4 & Hconv & Hbody).
  unfold lift in Hconv. injection Hconv as Hconv <-.
  apply bind_returned in Hbody as (img_array & w5 & Halloc & Hbody).
  apply bind_returned in Hbody
    as ([[label conf] probs] & w6 & Hclass & Hbody).
  apply bind_returned in Hbody as (marked & w7 & Hmark & Hbody).
  apply bind_returned in Hbody as (ob & w8 & Hob & Hbody).
  apply bind_returned in Hbody as (mb & w9 & Hmb & Hbody).
  injection Hbody as <- <-.
  assert (w5 = (alloc_array (np_array rgb) w).2) as Hw5 by (rewrite Halloc; reflexivity).
  assert (arrays w5 !! img_array = Some (np_array rgb)) as Hsrc.
  { unfold alloc_array in Halloc. py_step. injection Halloc as <- <-.
    simpl. apply lookup_insert_eq. }
  destruct (analyze_ecg_image_returned _ _ _ _ _ _ Hclass) as [-> _].
  rewrite (mark_ecg_image_spec _ _ _ _ Hsrc) in Hmark.
  injection Hmark as <- <-.
  assert (fresh (dom (arrays w5)) ≠ img_array) as Hne.
  { intros Heq. apply (is_fresh (dom (arrays w5))). rewrite Heq.
    apply elem_of_dom. eauto. }
  apply image_to_base64_returned in Hob as (-> & a1 & j1 & Ha1 & Hj1 & ->).
  apply image_to_base64_returned in Hmb as (-> & a2 & j2 & Ha2 & Hj2 & ->).
  simpl in Ha1, Ha2.
  rewrite lookup_insert_ne in Ha1 by exact Hne. rewrite Hsrc in Ha1.
  injection Ha1 as <-.
  rewrite lookup_insert_eq in Ha2. injection Ha2 as <-.
  right. exists r, bytes, image, rgb, label, conf, probs, j1, j2.
  rewrite <- Hw5. repeat split; try assumption; reflexivity.
Qed.

Lemma analyze_returns (req : request) (w : world) :
  ∃ resp w', analyze req w = (Returned resp, w').
Proof.
  unfold analyze, try_except.
  match goal with
  | |- context [match ?b w with _ => _ end] => destruct (b w) as [[resp|e] w1]
  end; eauto.
Qed.

(** Classification of a PIL image looks at the globals and the modules only. *)
Lemma analyze_ecg_image_PIL_extends (p : pil_image) (w w2 : world) :
  extends w w2 →
  analyze_ecg_image (PIL p) w2 = ((analyze_ecg_image (PIL p) w).1, w2).
Proof.
  intros (Hm & _ & Hi & Hmod & _).
  unfold analyze_ecg_image, read_module. py_step.
  destruct (convert_RGB p) as [rgb|]; [|reflexivity].
  rewrite Hm. destruct (MODEL w) as [r|]; [|reflexivity].
  rewrite Hmod. destruct (modules w !! r) as [m|]; [|reflexivity].
  destruct (forward m (transform rgb)) as [logits|]; [|reflexivity].
  destruct (softmax logits !! argmax logits); [|reflexivity].
  rewrite Hi. destruct (ID_TO_LABEL w) as [d|]; [|reflexivity].
  destruct (d !! Z.of_nat (argmax logits)); reflexivity.
Qed.

Lemma image_to_base64_raise (r : positive) (w : world) (a : ndarray) (e : exn) :
  arrays w !! r = Some a →
  save_jpeg (Image_fromarray a) = Raised e →
  image_to_base64 r w = (Raised e, w).
Proof.
  intros Ha Hj. unfold image_to_base64, read_array. py_step. rewrite Ha, Hj.
  reflexivity.
Qed.

Lemma analyze_expected (req : request) (w : world) :
  ∃ w', analyze req w = (Returned (expected_response req w), w').
Proof.
  unfold analyze, expected_response, try_except, failure_dict, success_dict.
  unfold mbind at 1, py_bind at 1, get.
  destruct (MODEL w) as [r|] eqn:Hm; [|eexists; reflexivity].
  destruct (files req !! "file") as [bytes|] eqn:Hfile; [|eexists; reflexivity].
  unfold mbind at 1, py_bind at 1, lift at 1.
  destruct (Image_open bytes) as [image|e]; [|eexists; reflexivity].
  unfold mbind at 1, py_bind at 1, lift at 1.
  destruct (convert_RGB image) as [rgb|e]; [|eexists; reflexivity].
  unfold mbind at 1, py_bind at 1.
  set (w5 := (alloc_array (np_array rgb) w).2).
  assert (alloc_array (np_array rgb) w = (Returned (fresh (dom (arrays w))), w5)) as ->
    by reflexivity.
  assert (arrays w5 !! fresh (dom (arrays w)) = Some (np_array rgb)) as Hsrc
    by (simpl; apply lookup_insert_eq).
  assert (fresh (dom (arrays w5)) ≠ fresh (dom (arrays w))) as Hne.
  { intros Heq. apply (is_fresh (dom (arrays w5))). rewrite Heq.
    apply elem_of_dom. eauto. }
  unfold mbind at 1, py_bind at 1.
  rewrite (analyze_ecg_image_PIL_extends image w w5 (frames_alloc_array _ w)).
  destruct (analyze_ecg_image (PIL image) w).1 as [[[label conf] probs]|e];
    [|eexists; reflexivity].
  unfold mbind at 1, py_bind at 1.
  rewrite (mark_ecg_image_spec _ _ _ _ Hsrc).
  unfold mbind at 1, py_bind at 1.
  destruct (save_jpeg (Image_fromarray (np_array rgb))) as [j1|e] eqn:Hj1.
  2: { erewrite (image_to_base64_raise _ _ (np_array rgb) e);
         [eexists; reflexivity | simpl; rewrite lookup_insert_ne by exact Hne; exact Hsrc
         | exact Hj1]. }
  erewrite (image_to_base64_run _ _ (np_array rgb) j1);
    [| simpl; rewrite lookup_insert_ne by exact Hne; exact Hsrc | exact Hj1].
  unfold mbind at 1, py_bind at 1.
  destruct (save_jpeg (Image_fromarray (annotate_pixels label (np_array rgb))))
    as [j2|e] eqn:Hj2.
  2: { erewrite (image_to_base64_raise _ _ _ e);
         [eexists; reflexivity | simpl; apply lookup_insert_eq | exact Hj2]. }
  erewrite (image_to_base64_run _ _ _ j2);
    [| simpl; apply lookup_insert_eq | exact Hj2].
  eexists. reflexivity.
Qed.

Lemma success_dict_complete (prediction : string) (confidence : float)
    (probabilities : list float) (original marked : string) :
  complete_success (success_dict prediction confidence probabilities original marked).
Proof.
  split; [reflexivity|]. split; [reflexivity|].
  repeat constructor; eexists; reflexivity.
Qed.

Lemma expected_response_shape (req : request) (w : world) :
  complete_success (expected_response req w) ∨
  tagged_failure (expected_response req w).
Proof.
  unfold expected_response.
  repeat match goal with
         | |- context [match ?x with _ => _ end] => destruct x
         end;
    first [right; apply failure_dict_tagged | left; apply success_dict_complete].
Qed.

(** C9: [analyze] returns for every request and every process state; what
    it returns is a dict with [success] true and all four output fields, or a
    dict with [success] false, an [error] message and none of the four.  It is
    the failure dict with the not-loaded message when no model is loaded,
    with "No file uploaded" when the file field is missing, and with the text
    of the exception when the bytes do not decode, the image does not convert,
    classification raises or a JPEG encoding fails; it is the success dict,
    filled from what classification returned, exactly when every step
    succeeded. *)
Theorem analyze_structured_outcome (req : request) (w : world) :
  ∃ resp w',
    analyze req w = (Returned resp, w') ∧
    resp = expected_response req w ∧
    (complete_success resp ∨ tagged_failure resp) ∧
    (MODEL w = None → resp = failure_dict not_loaded_message) ∧
    (is_Some (MODEL w) → files req !! "file" = None →
     resp = failure_dict "No file uploaded") ∧
    (∀ bytes e, is_Some (MODEL w) → files req !! "file" = Some bytes →
       Image_open bytes = Raised e → resp = failure_dict (str_exn e)) ∧
    (∀ bytes image e, is_Some (MODEL w) → files req !! "file" = Some bytes →
       Image_open bytes = Returned image → convert_RGB image = Raised e →
       resp = failure_dict (str_exn e)) ∧
    (∀ bytes image rgb e, is_Some (MODEL w) → files req !! "file" = Some bytes →
       Image_open bytes = Returned image → convert_RGB image = Returned rgb →
       (analyze_ecg_image (PIL image) w).1 = Raised e →
       resp = failure_dict (str_exn e)) ∧
    (∀ bytes image rgb label conf probs,
       is_Some (MODEL w) → files req !! "file" = Some bytes →
       Image_open bytes = Returned image → convert_RGB image = Returned rgb →
       (analyze_ecg_image (PIL image) w).1 = Returned (label, conf, probs) →
       (∀ e, save_jpeg (Image_fromarray (np_array rgb)) = Raised e ∨
             (is_Some_returned (save_jpeg (Image_fromarray (np_array rgb))) ∧
              save_jpeg (Image_fromarray (annotate_pixels label (np_array rgb)))
              = Raised e) →
             resp = failure_dict (str_exn e)) ∧
       (∀ j1 j2, save_jpeg (Image_fromarray (np_array rgb)) = Returned j1 →
                 save_jpeg (Image_fromarray (annotate_pixels label (np_array rgb)))
                 = Returned j2 →
                 resp = success_dict label conf probs (b64encode j1) (b64encode j2))).
Proof.
  destruct (analyze_expected req w) as [w' Hrun].
  exists (expected_response req w), w'. split; [exact Hrun|].
  split; [reflexivity|]. split; [apply expected_response_shape|].
  unfold expected_response.
  split; [intros ->; reflexivity|].
  split; [intros [r ->] ->; reflexivity|].
  split; [intros bytes e [r ->] -> ->; reflexivity|].
  split; [intros bytes image e [r ->] -> -> ->; reflexivity|].
  split; [intros bytes image rgb e [r ->] -> -> -> ->; reflexivity|].
  intros bytes image rgb label conf probs [r ->] -> -> -> ->. split.
  - intros e [-> | [[j1 ->] ->]]; reflexivity.
  - intros j1 j2 -> ->. reflexivity.
Qed.

(** X15: a response with [success] true reports exactly what the pipeline
    computed: the uploaded bytes decoded and converted, the label, confidence
    and probabilities are those [analyze_ecg_image] returns for that image in
    the request's state, the explanation is the label's record, and the two
    images are the base64 of the JPEG of the RGB array and of that array
    marked for the label. *)
Theorem analyze_success_content (req : request) (w w' : world)
    (resp : gmap string json) :
  analyze req w = (Returned resp, w') →
  resp !! "success" = Some (JBool true) →
  ∃ bytes image rgb label conf probs j1 j2,
    is_Some (MODEL w) ∧
    files req !! "file" = Some bytes ∧
    Image_open bytes = Returned image ∧
    convert_RGB image = Returned rgb ∧
    analyze_ecg_image (PIL image) w = (Returned (label, conf, probs), w) ∧
    save_jpeg (Image_fromarray (np_array rgb)) = Returned j1 ∧
    save_jpeg (Image_fromarray (annotate_pixels label (np_array rgb))) = Returned j2 ∧
    resp !! "prediction" = Some (JStr label) ∧
    resp !! "confidence" = Some (JFloat conf) ∧
    resp !! "probabilities" = Some (JList (JFloat <$> probs)) ∧
    resp !! "explanation" = Some (get_explanation label) ∧
    resp !! "original_image" = Some (JStr (b64encode j1)) ∧
    resp !! "marked_image" = Some (JStr (b64encode j2)) ∧
    resp !! "error" = None.
Proof.
  intros Hrun Hok.
  destruct (analyze_cases _ _ _ _ Hrun)
    as [[msg ->]|(r & bytes & image & rgb & label & conf & probs & j1 & j2 &
                  Hm & Hfile & Hopen & Hconv & Hclass & Hj1 & Hj2 & ->)].
  { discriminate Hok. }
  exists bytes, image, rgb, label, conf, probs, j1, j2.
  rewrite (analyze_ecg_image_PIL_extends image w _ (frames_alloc_array _ w)) in Hclass.
  assert (analyze_ecg_image (PIL image) w = (Returned (label, conf, probs), w)) as Hw.
  { pose proof (analyze_ecg_image_world (PIL image) w) as Hsame.
    destruct (analyze_ecg_image (PIL image) w) as [o w1]. simpl in *.
    congruence. }
  repeat split; try assumption; try reflexivity. eauto.
Qed.

Lemma softmax_argmax_some (logits : list float) :
  logits ≠ [] → is_Some (softmax logits !! argmax logits).
Proof.
  intros Hne. apply lookup_lt_is_Some. rewrite softmax_length.
  apply argmax_bound, Hne.
Qed.

Lemma analyze_run (req : request) (w : world) (r : positive) (m : module)
    (bytes : list Byte.byte) (image rgb : pil_image) (logits : list float)
    (d : gmap Z string) (label : string) (j1 j2 : list Byte.byte) :
  MODEL w = Some r →
  modules w !! r = Some m →
  files req !! "file" = Some bytes →
  Image_open bytes = Returned image →
  convert_RGB image = Returned rgb →
  forward m (transform rgb) = Returned logits →
  ID_TO_LABEL w = Some d →
  d !! Z.of_nat (argmax logits) = Some label →
  save_jpeg (Image_fromarray (np_array rgb)) = Returned j1 →
  save_jpeg (Image_fromarray (annotate_pixels label (np_array rgb))) = Returned j2 →
  ∃ conf w',
    analyze req w
    = (Returned (success_dict label conf (softmax logits)
                              (b64encode j1) (b64encode j2)), w') ∧
    softmax logits !! argmax logits = Some conf.
Proof.
  intros Hm Hr Hfile Hopen Hconv Hf Hd Hl Hj1 Hj2.
  assert (logits ≠ []) as Hne.
  { intros ->. pose proof (forward_num_classes _ _ _ Hf). discriminate. }
  destruct (softmax_argmax_some logits Hne) as [c Hc].
  exists c. eexists. split; [|exact Hc].
  assert (analyze_ecg_image (PIL image) w = (Returned (label, c, softmax logits), w))
    as Hw.
  { unfold analyze_ecg_image, read_module. py_step.
    rewrite Hconv, Hm, Hr, Hf, Hc, Hd, Hl. reflexivity. }
  set (w5 := (alloc_array (np_array rgb) w).2).
  assert (alloc_array (np_array rgb) w = (Returned (fresh (dom (arrays w))), w5)) as Halloc
    by reflexivity.
  assert (arrays w5 !! fresh (dom (arrays w)) = Some (np_array rgb)) as Hsrc
    by (simpl; apply lookup_insert_eq).
  assert (analyze_ecg_image (PIL image) w5 = (Returned (label, c, softmax logits), w5))
    as Hclass.
  { rewrite (analyze_ecg_image_PIL_extends image w w5 (frames_alloc_array _ w)), Hw.
    reflexivity. }
  assert (fresh (dom (arrays w5)) ≠ fresh (dom (arrays w))) as Hne2.
  { intros Heq. apply (is_fresh (dom (arrays w5))). rewrite Heq.
    apply elem_of_dom. eauto. }
  unfold analyze, try_except. unfold mbind, py_bind, get.
  rewrite Hm, Hfile. unfold lift. rewrite Hopen, Hconv, Halloc, Hclass.
  rewrite (mark_ecg_image_spec _ _ _ _ Hsrc).
  erewrite (image_to_base64_run _ _ (np_array rgb) j1);
    [| simpl; rewrite lookup_insert_ne by exact Hne2; exact Hsrc | exact Hj1].
  erewrite (image_to_base64_run _ _ _ j2);
    [| simpl; apply lookup_insert_eq | exact Hj2].
  reflexivity.
Qed.

(** X16: the route succeeds whenever each step can: a model is bound, the
    upload decodes and converts, the forward pass returns, [ID_TO_LABEL] knows
    the winning index and both JPEG encodings work.  The response is then the
    success dict for that label, with the probability at the winning index as
    confidence. *)
Theorem analyze_succeeds (req : request) (w : world) (r : positive) (m : module)
    (bytes : list Byte.byte) (image rgb : pil_image) (logits : list float)
    (d : gmap Z string) (label : string) (j1 j2 : list Byte.byte) :
  MODEL w = Some r →
  modules w !! r = Some m →
  files req !! "file" = Some bytes →
  Image_open bytes = Returned image →
  convert_RGB image = Returned rgb →
  forward m (transform rgb) = Returned logits →
  ID_TO_LABEL w = Some d →
  d !! Z.of_nat (argmax logits) = Some label →
  save_jpeg (Image_fromarray (np_array rgb)) = Returned j1 →
  save_jpeg (Image_fromarray (annotate_pixels label (np_array rgb))) = Returned j2 →
  ∃ conf w',
    analyze req w
    = (Returned (success_dict label conf (softmax logits)
                              (b64encode j1) (b64encode j2)), w') ∧
    softmax logits !! argmax logits = Some conf.
Proof. apply analyze_run. Qed.

(** X17: with a model bound, a request without a "file" part is answered
    "No file uploaded" and bytes that do not decode are answered with the
    decoder's message; in both cases the process state is exactly as before. *)
Theorem analyze_input_errors (req : request) (w : world) :
  is_Some (MODEL w) →
  (files req !! "file" = None →
   analyze req w = (Returned (failure_dict "No file uploaded"), w)) ∧
  (∀ bytes e, files req !! "file" = Some bytes → Image_open bytes = Raised e →
   analyze req w = (Returned (failure_dict (str_exn e)), w)).
Proof.
  intros [r Hm]. split.
  - intros Hfile. unfold analyze. py_step. rewrite Hm, Hfile. reflexivity.
  - intros bytes e Hfile Hopen. unfold analyze. py_step.
    rewrite Hm, Hfile, Hopen. reflexivity.
Qed.

Lemma load_model_failure_keeps_label_map (p : string) (w w1 : world) :
  load_model p w = (Returned None, w1) → ID_TO_LABEL w1 = ID_TO_LABEL w.
Proof.
  unfold load_model, torch_load, create_model, load_state_dict, module_to, module_eval.
  py_step.
  destruct (MODEL w); [discriminate|].
  destruct (disk w !! p) as [[|c]|]; py_step;
    [| destruct (model_state_dict c) as [sd|]; py_step;
       [destruct (decide (shape <$> sd = swin_shapes)); py_step;
        [destruct (label_to_id c); py_step;
         [destruct (id_to_label c); py_step|]|]|] |];
    intros [= <-]; reflexivity.
Qed.

(** X18: after a load that reported failure in a process without label
    map, every request is answered with a failure dict, never with a
    prediction, also when the failed load left [MODEL] bound. *)
Theorem failed_load_never_predicts (p : string) (w w1 : world) (req : request) :
  ID_TO_LABEL w = None →
  load_model p w = (Returned None, w1) →
  ∃ msg w2, analyze req w1 = (Returned (failure_dict msg), w2).
Proof.
  intros Hnone Hload.
  pose proof (load_model_failure_keeps_label_map _ _ _ Hload) as Hid.
  rewrite Hnone in Hid.
  destruct (analyze_returns req w1) as (resp & w2 & Hrun).
  destruct (analyze_cases _ _ _ _ Hrun)
    as [[msg ->]|(r & bytes & image & rgb & label & conf & probs & j1 & j2 &
                  _ & _ & _ & _ & Hclass & _)].
  { eauto. }
  destruct (analyze_ecg_image_returned _ _ _ _ _ _ Hclass)
    as (_ & r0 & m & q & rgb0 & logits & d & _ & _ & _ & _ & _ & _ & _ & Hd & _).
  simpl in Hd. congruence.
Qed.

End RouteMore.

(** ** Labels in the response *)

Section RouteLabels.
Context `{Imaging} `{CV2}.

(** X19: the label in a response is what [ID_TO_LABEL] holds at one of the
    indices 0 to 3; the literal class names of the program play no part. *)
Theorem analyze_label_from_label_map (req : request) (w w' : world)
    (resp : gmap string json) (label : string) :
  analyze req w = (Returned resp, w') →
  resp !! "prediction" = Some (JStr label) →
  ∃ d i, ID_TO_LABEL w = Some d ∧ (0 <= i < 4)%Z ∧ d !! i = Some label.
Proof.
  intros Hrun Hp.
  destruct (analyze_cases _ _ _ _ Hrun)
    as [[msg ->]|(r & bytes & image & rgb & label0 & conf & probs & j1 & j2 &
                  _ & _ & _ & _ & Hclass & _ & _ & ->)].
  { discriminate Hp. }
  assert (label0 = label) as -> by (vm_compute in Hp; congruence).
  destruct (analyze_ecg_image_returned _ _ _ _ _ _ Hclass)
    as (_ & r0 & m & q & rgb0 & logits & d & _ & _ & _ & _ & Hf & _ & Hc & Hd & Hl).
  exists d, (Z.of_nat (argmax logits)). split; [exact Hd|]. split; [|exact Hl].
  apply lookup_lt_Some in Hc.
  rewrite softmax_length, (forward_num_classes _ _ _ Hf) in Hc. lia.
Qed.

(** X20: when the label map names the winning class outside the four known
    labels, the response still reports success with that label, carries the
    Normal_ECG explanation, and its marked image is the original image. *)
Theorem analyze_unknown_label_response (req : request) (w w' : world)
    (resp : gmap string json) (label : string) :
  analyze req w = (Returned resp, w') →
  resp !! "prediction" = Some (JStr label) →
  label ∉ known_labels →
  resp !! "success" = Some (JBool true) ∧
  resp !! "explanation" = Some (get_explanation "Normal_ECG") ∧
  resp !! "marked_image" = resp !! "original_image".
Proof.
  intros Hrun Hp Hl.
  destruct (analyze_cases _ _ _ _ Hrun)
    as [[msg ->]|(r & bytes & image & rgb & label0 & conf & probs & j1 & j2 &
                  _ & _ & _ & _ & _ & Hj1 & Hj2 & ->)].
  { discriminate Hp. }
  assert (label0 = label) as -> by (vm_compute in Hp; congruence).
  rewrite (annotate_pixels_unknown _ _ Hl), Hj1 in Hj2. injection Hj2 as <-.
  split; [reflexivity|]. split; [|reflexivity].
  rewrite <- (get_explanation_unknown _ Hl). reflexivity.
Qed.

End RouteLabels.

(** ** The further properties on concrete processes *)

Section MoreExamples.
Import Fixture.

Lemma good_checkpoint_loadable : loadable good_checkpoint.
Proof.
  eexists _, _, _. split; [reflexivity|]. split; [vm_compute; reflexivity|].
  split; reflexivity.
Defined.

Lemma load_model_success_state_witness :
  MODEL (boot {[ path := Pickled good_checkpoint ]}) = None ∧
  load_model path (boot {[ path := Pickled good_checkpoint ]})
  = (Returned (Some 1%positive), loaded) ∧
  LABEL_TO_ID loaded = label_to_id good_checkpoint ∧
  ID_TO_LABEL loaded = id_to_label good_checkpoint ∧
  modules loaded !! 1%positive = Some Quiet.loaded_module ∧
  disk_reads loaded = [path].
Proof.
  assert (load_model path (boot {[ path := Pickled good_checkpoint ]})
          = (Returned (Some 1%positive), loaded)) as Hload
    by (vm_compute; reflexivity).
  split; [reflexivity|]. split; [exact Hload|].
  destruct (load_model_success_state path (boot {[ path := Pickled good_checkpoint ]})
              loaded 1%positive eq_refl Hload)
    as (c & sd & l2i & i2l & Hc & Hsd & _ & Hl & Hi & _ & Hl' & Hi' & _ & Hmod & Hreads & _).
  assert (c = good_checkpoint) as ->.
  { vm_compute in Hc. injection Hc as <-. reflexivity. }
  rewrite Hl', Hi', Hl, Hi, Hmod, Hreads. unfold Quiet.loaded_module.
  rewrite Hsd. repeat split; reflexivity.
Defined.

Lemma load_model_succeeds_witness :
  ∃ m w', load_model path (boot {[ path := Pickled good_checkpoint ]})
          = (Returned (Some m), w') ∧
          MODEL w' = Some m ∧
          LABEL_TO_ID w' = label_to_id good_checkpoint ∧
          ID_TO_LABEL w' = id_to_label good_checkpoint ∧
          (Some ∘ weights <$> modules w' !! m) = Some (model_state_dict good_checkpoint).
Proof.
  apply (load_model_succeeds path (boot {[ path := Pickled good_checkpoint ]})
           good_checkpoint).
  - reflexivity.
  - vm_compute. reflexivity.
  - exact good_checkpoint_loadable.
Defined.

Lemma load_model_retry_after_unreadable_witness :
  (load_model path (boot ∅)).1 = Returned None ∧
  ∃ m w2,
    load_model path (set_disk (<[path := Pickled good_checkpoint]>
                                 (disk (load_model path (boot ∅)).2))
                              (load_model path (boot ∅)).2)
    = (Returned (Some m), w2) ∧
    MODEL w2 = Some m ∧
    LABEL_TO_ID w2 = label_to_id good_checkpoint ∧
    ID_TO_LABEL w2 = id_to_label good_checkpoint.
Proof.
  apply (load_model_retry_after_unreadable path (boot ∅) good_checkpoint).
  - reflexivity.
  - intros c0 Hc. vm_compute in Hc. discriminate Hc.
  - exact good_checkpoint_loadable.
Defined.

Lemma main_announces_success_without_model_witness :
  ∃ w1, main (H0 := Quiet.flask) (boot ∅)
        = app_run (Flask := Quiet.flask) true "0.0.0.0" 5000 w1 ∧
        MODEL w1 = None ∧
        stdout w1
        = ["Loading ECG AI model...";
           "Error loading model: [Errno 2] No such file or directory: 'trained_ecg_model.pth'";
           "Model loaded successfully!";
           newline +:+ rule;
           "🏥 ECG AI Health Assistant Starting...";
           rule;
           "📍 Access the application at: http://localhost:5000";
           rule +:+ newline].
Proof.
  apply (main_announces_success_without_model (H0 := Quiet.flask) (boot ∅)
           (FileNotFoundError "trained_ecg_model.pth")).
  - reflexivity.
  - left. split; reflexivity.
Defined.

Lemma get_explanation_fallback_witness :
  ("UnknownLabel" ∉ known_labels) ∧
  get_explanation "UnknownLabel" = get_explanation "Normal_ECG".
Proof.
  assert ("UnknownLabel" ∉ known_labels) as Hl
    by (apply (bool_decide_unpack ("UnknownLabel" ∉ known_labels));
        vm_compute; exact I).
  split; [exact Hl|]. apply (get_explanation_fallback _ Hl).
Defined.

Lemma classification_needs_label_map_witness :
  MODEL Quiet.half_loaded = Some 1%positive ∧
  ID_TO_LABEL Quiet.half_loaded = None ∧
  ∀ r w', analyze_ecg_image scan Quiet.half_loaded ≠ (Returned r, w').
Proof.
  split; [vm_compute; reflexivity|].
  assert (ID_TO_LABEL Quiet.half_loaded = None) as Hnone by (vm_compute; reflexivity).
  split; [exact Hnone|].
  apply (classification_needs_label_map scan Quiet.half_loaded Hnone).
Defined.

Lemma mark_ecg_image_no_qualifying_contour_witness :
  ∃ r w', mark_ecg_image (H := Quiet.cv2) 1%positive "Abnormal_Heartbeat" canvas
          = (Returned r, w') ∧
          r ≠ 1%positive ∧ arrays w' !! r = Some strip.
Proof.
  apply (mark_ecg_image_no_qualifying_contour (H := Quiet.cv2)
           1%positive "Abnormal_Heartbeat" 30%Q 300%Q canvas strip).
  - reflexivity.
  - left. repeat split; reflexivity.
  - repeat constructor; unfold Qle; simpl; lia.
Defined.

Lemma mark_ecg_image_twice_witness :
  arrays canvas !! 1%positive = Some strip ∧
  ∃ r1 w1 r2 w2,
    mark_ecg_image 1%positive "Abnormal_Heartbeat" canvas = (Returned r1, w1) ∧
    mark_ecg_image 1%positive "Normal_ECG" w1 = (Returned r2, w2) ∧
    r1 ≠ 1%positive ∧ r2 ≠ 1%positive ∧ r1 ≠ r2 ∧
    arrays w2 !! 1%positive = Some strip ∧
    arrays w2 !! r1 = Some (annotate_pixels "Abnormal_Heartbeat" strip) ∧
    arrays w2 !! r2 = Some (annotate_pixels "Normal_ECG" strip).
Proof.
  split; [reflexivity|].
  apply (mark_ecg_image_twice 1%positive "Abnormal_Heartbeat" "Normal_ECG" canvas strip).
  reflexivity.
Defined.

Lemma analyze_fixture_run :
  ∃ conf w',
    analyze Quiet.upload loaded
    = (Returned (success_dict "Myocardial_Infarction" conf (softmax (f32 <$> [1; 3; 2; 0]))
                              "" ""), w') ∧
    softmax (f32 <$> [1; 3; 2; 0]) !! argmax (f32 <$> [1; 3; 2; 0]) = Some conf.
Proof.
  apply (analyze_run (H0 := imaging) (H1 := cv2) Quiet.upload loaded 1%positive
           Quiet.loaded_module [Byte.x41] [[(65, 65, 65)]] [[(65, 65, 65)]]
           (f32 <$> [1; 3; 2; 0])
           {[ 0 := "Abnormal_Heartbeat"; 1 := "Myocardial_Infarction";
              2 := "Normal_ECG"; 3 := "Post_MI_History" ]}
           "Myocardial_Infarction" [] []).
  - vm_compute. reflexivity.
  - vm_compute. reflexivity.
  - reflexivity.
  - reflexivity.
  - reflexivity.
  - reflexivity.
  - vm_compute. reflexivity.
  - reflexivity.
  - reflexivity.
  - reflexivity.
Defined.

Lemma analyze_succeeds_witness :
  ∃ conf w',
    analyze Quiet.upload loaded
    = (Returned (success_dict "Myocardial_Infarction" conf (softmax (f32 <$> [1; 3; 2; 0]))
                              "" ""), w') ∧
    softmax (f32 <$> [1; 3; 2; 0]) !! argmax (f32 <$> [1; 3; 2; 0]) = Some conf.
Proof.
  apply (analyze_succeeds (H0 := imaging) (H1 := cv2) Quiet.upload loaded 1%positive
           Quiet.loaded_module [Byte.x41] [[(65, 65, 65)]] [[(65, 65, 65)]]
           (f32 <$> [1; 3; 2; 0])
           {[ 0 := "Abnormal_Heartbeat"; 1 := "Myocardial_Infarction";
              2 := "Normal_ECG"; 3 := "Post_MI_History" ]}
           "Myocardial_Infarction" [] []).
  - vm_compute. reflexivity.
  - vm_compute. reflexivity.
  - reflexivity.
  - reflexivity.
  - reflexivity.
  - reflexivity.
  - vm_compute. reflexivity.
  - reflexivity.
  - reflexivity.
  - reflexivity.
Defined.

Lemma analyze_success_content_witness :
  ∃ resp w',
    analyze Quiet.upload loaded = (Returned resp, w') ∧
    resp !! "success" = Some (JBool true) ∧
    resp !! "prediction" = Some (JStr "Myocardial_Infarction") ∧
    resp !! "explanation" = Some (get_explanation "Myocardial_Infarction").
Proof.
  destruct analyze_fixture_run as (conf & w' & Hrun & _).
  eexists _, w'. split; [exact Hrun|]. split; [reflexivity|].
  destruct (analyze_success_content _ _ _ _ Hrun eq_refl)
    as (bytes & image & rgb & label & c & probs & j1 & j2 & _ & _ & _ & _ & _ & _ & _ &
        Hp & _ & _ & He & _).
  split; [|exact eq_refl]. reflexivity.
Defined.

Lemma analyze_input_errors_witness :
  is_Some (MODEL loaded) ∧
  analyze {| files := ∅ |} loaded = (Returned (failure_dict "No file uploaded"), loaded) ∧
  analyze {| files := {[ "file" := [] ]} |} loaded
  = (Returned (failure_dict "cannot identify image file"), loaded).
Proof.
  assert (is_Some (MODEL loaded)) as Hm by (eexists; vm_compute; reflexivity).
  split; [exact Hm|].
  split.
  - apply (proj1 (analyze_input_errors {| files := ∅ |} loaded Hm)). reflexivity.
  - apply (proj2 (analyze_input_errors {| files := {[ "file" := [] ]} |} loaded Hm)
             [] (UnidentifiedImageError "cannot identify image file")); reflexivity.
Defined.

Lemma failed_load_never_predicts_witness :
  load_model path (boot {[ path := Pickled mismatched_checkpoint ]})
  = (Returned None, Quiet.half_loaded) ∧
  MODEL Quiet.half_loaded = Some 1%positive ∧
  ∃ msg w2, analyze Quiet.upload Quiet.half_loaded = (Returned (failure_dict msg), w2).
Proof.
  assert (load_model path (boot {[ path := Pickled mismatched_checkpoint ]})
          = (Returned None, Quiet.half_loaded)) as Hload by (vm_compute; reflexivity).
  split; [exact Hload|]. split; [vm_compute; reflexivity|].
  apply (failed_load_never_predicts path (boot {[ path := Pickled mismatched_checkpoint ]})
           Quiet.half_loaded Quiet.upload eq_refl Hload).
Defined.

Lemma analyze_renamed_run :
  ∃ conf w',
    analyze Quiet.upload Quiet.renamed
    = (Returned (success_dict "MI" conf (softmax (f32 <$> [1; 3; 2; 0])) "" ""), w').
Proof.
  destruct (analyze_run (H0 := imaging) (H1 := cv2) Quiet.upload Quiet.renamed
              1%positive Quiet.loaded_module [Byte.x41] [[(65, 65, 65)]]
              [[(65, 65, 65)]] (f32 <$> [1; 3; 2; 0])
              {[ 0 := "AHB"; 1 := "MI"; 2 := "NORM"; 3 := "PMI" ]} "MI" [] [])
    as (conf & w' & Hrun & _).
  - vm_compute. reflexivity.
  - vm_compute. reflexivity.
  - reflexivity.
  - reflexivity.
  - reflexivity.
  - reflexivity.
  - vm_compute. reflexivity.
  - reflexivity.
  - reflexivity.
  - reflexivity.
  - exists conf, w'. exact Hrun.
Defined.

Lemma analyze_label_from_label_map_witness :
  ∃ resp w' d i,
    analyze Quiet.upload Quiet.renamed = (Returned resp, w') ∧
    resp !! "prediction" = Some (JStr "MI") ∧
    ID_TO_LABEL Quiet.renamed = Some d ∧ (0 <= i < 4)%Z ∧ d !! i = Some "MI".
Proof.
  destruct analyze_renamed_run as (conf & w' & Hrun).
  destruct (analyze_label_from_label_map _ _ _ _ "MI" Hrun eq_refl)
    as (d & i & Hd & Hi & Hl).
  eexists _, w', d, i. split; [exact Hrun|]. split; [reflexivity|]. auto.
Defined.

Lemma analyze_unknown_label_response_witness :
  ("MI" ∉ known_labels) ∧
  ∃ resp w',
    analyze Quiet.upload Quiet.renamed = (Returned resp, w') ∧
    resp !! "prediction" = Some (JStr "MI") ∧
    resp !! "success" = Some (JBool true) ∧
    resp !! "explanation" = Some (get_explanation "Normal_ECG") ∧
    resp !! "marked_image" = resp !! "original_image".
Proof.
  assert ("MI" ∉ known_labels) as Hl
    by (apply (bool_decide_unpack ("MI" ∉ known_labels)); vm_compute; exact I).
  split; [exact Hl|].
  destruct analyze_renamed_run as (conf & w' & Hrun).
  eexists _, w'. split; [exact Hrun|]. split; [reflexivity|].
  exact (analyze_unknown_label_response _ _ _ _ "MI" Hrun eq_refl Hl).
Defined.

End MoreExamples.
